(** * V8.NET native proxy layer

    A shallow embedding of the handle lifecycle (HandleProxy.cpp), the
    property interception dispatcher (ObjectTemplateProxy.cpp), the
    function-template bridge (FunctionTemplateProxy.cpp) and the exported
    entry points (Exports.cpp), over the types of ProxyTypes.h.

    Conventions.
    - A script value is represented by what the engine's API answers about
      it ([Value]); a [Handle<Value>] is an [option Value], [None] being the
      empty handle.
    - The part of the engine heap the proxy layer reads back (internal
      fields and hidden values of objects) is explicit state ([heap]).
    - Every call into the engine API, every host callback the handle layer
      makes and every mutex operation is appended to [trace], which plays
      the role of a call-count probe.
    - A pointer is modelled by the object it points to ([None] for nullptr);
      storage that has been freed is not represented. *)

From stdpp Require Import base option list strings gmap.
From Stdlib Require Import ZArith Lia.

Local Open Scope Z_scope.

(** ** Machine integers *)

(** [(int32_t)x]: the low 32 bits of [x], read as a signed number. *)
Definition to_int32 (x : Z) : Z := (x + 2^31) mod 2^32 - 2^31.

(** [(void* )x] for a 32-bit signed [x] on a 64-bit target: sign extension,
    read as an address. *)
Definition to_pointer (x : Z) : Z := x mod 2^64.

(** ** Script values, as observed through the engine API *)

Record Value := mkValue {
  (* type tests of v8::Value *)
  IsUndefined : bool;
  IsNull : bool;
  IsTrue : bool;
  IsFalse : bool;
  IsBoolean : bool;
  IsBooleanObject : bool;
  IsInt32 : bool;
  IsNumber : bool;
  IsNumberObject : bool;
  IsString : bool;
  IsStringObject : bool;
  IsDate : bool;
  IsArray : bool;
  IsRegExp : bool;
  IsFunction : bool;
  IsExternal : bool;
  IsNativeError : bool;
  IsObject : bool;
  (* conversions *)
  BooleanValue : bool;
  Int32Value : Z;
  NumberValue : Z;           (* the double, as its IEEE-754 bit pattern *)
  ToString : string;
  (* v8::External::Value(), v8::Array::Length() *)
  External_Value : Z;
  Array_Length : Z;
  (* identity of the object in the engine heap *)
  address : nat
}.

(** [Handle<Value>], [Local<Value>], [Persistent<Value>]. *)
Abbreviation Handle := (option Value).

(** The engine-side classes used to build concrete values. *)
Inductive Test :=
  | TUndefined | TNull | TTrue | TFalse | TBoolean | TBooleanObject | TInt32
  | TNumber | TNumberObject | TString | TStringObject | TDate | TArray
  | TRegExp | TFunction | TExternal | TNativeError | TObject.

#[global] Instance Test_eq_dec : EqDecision Test.
Proof. solve_decision. Defined.

Definition has (t : Test) (ts : list Test) : bool := bool_decide (t ∈ ts).

(** A value answering [true] to exactly the tests in [ts]. *)
Definition value_with (ts : list Test) (b : bool) (n : Z) (s : string)
    (p : Z) (addr : nat) : Value :=
  {| IsUndefined := has TUndefined ts; IsNull := has TNull ts;
     IsTrue := has TTrue ts; IsFalse := has TFalse ts;
     IsBoolean := has TBoolean ts; IsBooleanObject := has TBooleanObject ts;
     IsInt32 := has TInt32 ts; IsNumber := has TNumber ts;
     IsNumberObject := has TNumberObject ts; IsString := has TString ts;
     IsStringObject := has TStringObject ts; IsDate := has TDate ts;
     IsArray := has TArray ts; IsRegExp := has TRegExp ts;
     IsFunction := has TFunction ts; IsExternal := has TExternal ts;
     IsNativeError := has TNativeError ts; IsObject := has TObject ts;
     BooleanValue := b; Int32Value := n; NumberValue := 0; ToString := s;
     External_Value := p; Array_Length := 0; address := addr |}.

(** [v8::Undefined()]. *)
Definition v8_Undefined : Value :=
  value_with [TUndefined] false 0 "undefined" 0 0.

(** [v8::Integer::New(n)]. *)
Definition Integer_New (n : Z) : Value :=
  value_with [TInt32; TNumber] (negb (n =? 0)) n "" 0 0.

(** [v8::External::New(p)]. *)
Definition External_New (p : Z) : Value :=
  value_with [TExternal; TObject] true 0 "[object Object]" p 0.

(** A plain script object living at [addr]. *)
Definition object_at_address (addr : nat) : Value :=
  value_with [TObject] true 0 "[object Object]" 0 addr.

(** An object created by [new Error(msg)]. *)
Definition native_error (msg : string) (addr : nat) : Value :=
  value_with [TNativeError; TObject] true 0 ("Error: " +:+ msg) 0 addr.

(** A primitive string. *)
Definition string_value (s : string) : Value :=
  value_with [TString] true 0 s 0 0.

(** ** The types of ProxyTypes.h *)

(** [enum JSValueType : int32_t]. *)
Inductive JSValueType :=
  | JSV_ExecutionError | JSV_CompilerError | JSV_InternalError
  | JSV_Undefined | JSV_Null | JSV_Bool | JSV_BoolObject | JSV_Int32
  | JSV_Number | JSV_NumberObject | JSV_String | JSV_StringObject
  | JSV_Object | JSV_Function | JSV_Date | JSV_Array | JSV_RegExp.

#[global] Instance JSValueType_eq_dec : EqDecision JSValueType.
Proof. solve_decision. Defined.

(** The enumerators' values. *)
Definition JSValueType_value (t : JSValueType) : Z :=
  match t with
  | JSV_ExecutionError => -3 | JSV_CompilerError => -2
  | JSV_InternalError => -1 | JSV_Undefined => 0 | JSV_Null => 1
  | JSV_Bool => 2 | JSV_BoolObject => 3 | JSV_Int32 => 4 | JSV_Number => 5
  | JSV_NumberObject => 6 | JSV_String => 7 | JSV_StringObject => 8
  | JSV_Object => 9 | JSV_Function => 10 | JSV_Date => 11 | JSV_Array => 12
  | JSV_RegExp => 13
  end.

(** [struct HandleValue]: the first union holds one of three scalars, the
    second the marshalled string (nullptr when absent). *)
Inductive Scalar :=
  | V8Boolean (b : bool)
  | V8Integer (n : Z)
  | V8Number (bits : Z).

Record HandleValue := mkHandleValue {
  scalar : Scalar;
  V8String : option string
}.

(** [struct HandleProxy].  [_ManagedObjectID] is the name HandleProxy.cpp
    uses for the cached host-object identifier; ProxyTypes.h declares the
    same member as [_ObjectID] with the setter [SetManagedObjectID].  The
    [_EngineProxy] pointer is passed to the methods that follow it. *)
Record HandleProxy := mkHandleProxy {
  _ID : Z;
  _ManagedObjectID : Z;
  _Type : JSValueType;
  _Value : HandleValue;
  _ManagedReferenceCount : Z;
  _Disposed : Z;
  _EngineID : Z;
  _Handle : Handle
}.

Definition set_ManagedObjectID (id : Z) (h : HandleProxy) : HandleProxy :=
  mkHandleProxy (_ID h) id (_Type h) (_Value h) (_ManagedReferenceCount h)
    (_Disposed h) (_EngineID h) (_Handle h).

Definition set_Type (t : JSValueType) (h : HandleProxy) : HandleProxy :=
  mkHandleProxy (_ID h) (_ManagedObjectID h) t (_Value h)
    (_ManagedReferenceCount h) (_Disposed h) (_EngineID h) (_Handle h).

Definition set_Value (v : HandleValue) (h : HandleProxy) : HandleProxy :=
  mkHandleProxy (_ID h) (_ManagedObjectID h) (_Type h) v
    (_ManagedReferenceCount h) (_Disposed h) (_EngineID h) (_Handle h).

Definition set_Disposed (d : Z) (h : HandleProxy) : HandleProxy :=
  mkHandleProxy (_ID h) (_ManagedObjectID h) (_Type h) (_Value h)
    (_ManagedReferenceCount h) d (_EngineID h) (_Handle h).

Definition set_Handle (v : Handle) (h : HandleProxy) : HandleProxy :=
  mkHandleProxy (_ID h) (_ManagedObjectID h) (_Type h) (_Value h)
    (_ManagedReferenceCount h) (_Disposed h) (_EngineID h) v.

(** [int32_t SetManagedObjectID(int32_t id)]. *)
Definition SetManagedObjectID (id : Z) (h : HandleProxy) : HandleProxy :=
  set_ManagedObjectID id h.

(** [bool IsError() { return _Type < 0; }]. *)
Definition IsError (h : HandleProxy) : bool := JSValueType_value (_Type h) <? 0.

(** [Handle<Value> HandleProxy::Handle() { return _Handle; }]. *)
Definition HandleProxy_Handle (h : HandleProxy) : Handle := _Handle h.

(** [struct ManagedAccessorInfo]; [_ObjectProxy] is the address of the
    dispatching template proxy. *)
Record ManagedAccessorInfo := mkManagedAccessorInfo {
  mai_ObjectProxy : nat;
  mai_ObjectID : Z;
  mai_Data : Handle;
  mai_This : Value
}.

(** Host callback types.  A [HandleProxy*] result is [None] for nullptr. *)
Definition ManagedNamedPropertyGetter : Type :=
  string → ManagedAccessorInfo → option HandleProxy.
Definition ManagedNamedPropertySetter : Type :=
  string → HandleProxy → ManagedAccessorInfo → option HandleProxy.
Definition ManagedNamedPropertyQuery : Type :=
  string → ManagedAccessorInfo → Z.
Definition ManagedNamedPropertyDeleter : Type :=
  string → ManagedAccessorInfo → Z.
Definition ManagedNamedPropertyEnumerator : Type :=
  ManagedAccessorInfo → option HandleProxy.
Definition ManagedIndexedPropertyGetter : Type :=
  Z → ManagedAccessorInfo → option HandleProxy.
Definition ManagedIndexedPropertySetter : Type :=
  Z → HandleProxy → ManagedAccessorInfo → option HandleProxy.
Definition ManagedIndexedPropertyQuery : Type :=
  Z → ManagedAccessorInfo → Z.
Definition ManagedIndexedPropertyDeleter : Type :=
  Z → ManagedAccessorInfo → Z.
Definition ManagedIndexedPropertyEnumerator : Type :=
  ManagedAccessorInfo → option HandleProxy.
Definition ManagedJSFunctionCallback : Type :=
  Z → bool → HandleProxy → list HandleProxy → Z → option HandleProxy.
Definition ManagedV8GarbageCollectionRequestCallback : Type :=
  HandleProxy → bool.

(** [enum TProxyObjectType]. *)
Inductive TProxyObjectType :=
  | ObjectTemplateProxyClass
  | FunctionTemplateProxyClass
  | V8EngineProxyClass.

#[global] Instance TProxyObjectType_eq_dec : EqDecision TProxyObjectType.
Proof. solve_decision. Defined.

(** [class ObjectTemplateProxy : ProxyBase].  The handler members are
    function pointers, [None] when null. *)
Module ObjectTemplateProxy.
Record t := mk {
  this : nat;
  Type_ : TProxyObjectType;
  _EngineID : Z;
  _ObjectID : Z;
  NamedPropertyGetter : option ManagedNamedPropertyGetter;
  NamedPropertySetter : option ManagedNamedPropertySetter;
  NamedPropertyQuery : option ManagedNamedPropertyQuery;
  NamedPropertyDeleter : option ManagedNamedPropertyDeleter;
  NamedPropertyEnumerator : option ManagedNamedPropertyEnumerator;
  IndexedPropertyGetter : option ManagedIndexedPropertyGetter;
  IndexedPropertySetter : option ManagedIndexedPropertySetter;
  IndexedPropertyQuery : option ManagedIndexedPropertyQuery;
  IndexedPropertyDeleter : option ManagedIndexedPropertyDeleter;
  IndexedPropertyEnumerator : option ManagedIndexedPropertyEnumerator
}.
End ObjectTemplateProxy.

(** [class FunctionTemplateProxy : ProxyBase]. *)
Module FunctionTemplateProxy.
Record t := mk {
  Type_ : TProxyObjectType;
  _EngineID : Z;
  _InstanceTemplate : option ObjectTemplateProxy.t;
  _PrototypeTemplate : option ObjectTemplateProxy.t;
  _ManagedCallback : option ManagedJSFunctionCallback
}.
End FunctionTemplateProxy.

(** [class V8EngineProxy : ProxyBase]: the members the handle layer reads.
    The handle and string pools are part of [World]. *)
Module V8EngineProxy.
Record t := mk {
  _EngineID : Z;
  _ManagedV8GarbageCollectionRequestCallback :
    option ManagedV8GarbageCollectionRequestCallback
}.
End V8EngineProxy.

(** What a [void*] template back-reference can point to. *)
Inductive ProxyBase :=
  | ToObjectTemplate (p : ObjectTemplateProxy.t)
  | ToFunctionTemplate (p : FunctionTemplateProxy.t).

(** [proxy->Type] read through a [ProxyBase*]. *)
Definition ProxyBase_Type (p : ProxyBase) : TProxyObjectType :=
  match p with
  | ToObjectTemplate o => ObjectTemplateProxy.Type_ o
  | ToFunctionTemplate f => FunctionTemplateProxy.Type_ f
  end.

(** ** Engine state *)

(** An internal field holds a value or an aligned pointer. *)
Inductive Slot :=
  | SlotValue (v : Value)
  | SlotAlignedPointer (p : option ProxyBase).

Record ObjectData := mkObjectData {
  InternalFields : list Slot;
  HiddenValues : gmap string Value
}.

Definition empty_object : ObjectData := mkObjectData [] ∅.

Inductive Event :=
  | Lock (engineID : Z)            (* _HandleSystemMutex.lock() *)
  | Unlock (engineID : Z)          (* _HandleSystemMutex.unlock() *)
  | Engine (api : string)          (* a call into the engine API *)
  | Host (callback : string)       (* a call of a host function pointer *)
  | ThrowException (message : string).

#[global] Instance Event_eq_dec : EqDecision Event.
Proof. solve_decision. Defined.

(** Everything outside the handle a call works on: the engine heap, the
    static table [V8EngineProxy::_DisposedEngines], the pools owned by the
    engine proxy ([_Handles], [_DisposedHandles], [_Strings]) and the
    probe. *)
Record World := mkWorld {
  heap : gmap nat ObjectData;
  _DisposedEngines : list bool;
  _Handles : list HandleProxy;
  _DisposedHandles : list Z;
  _Strings : list string;
  trace : list Event
}.

Definition set_heap (h : gmap nat ObjectData) (w : World) : World :=
  mkWorld h (_DisposedEngines w) (_Handles w) (_DisposedHandles w)
    (_Strings w) (trace w).

Definition log (evs : list Event) (w : World) : World :=
  mkWorld (heap w) (_DisposedEngines w) (_Handles w) (_DisposedHandles w)
    (_Strings w) (trace w ++ evs).

(** ** Computations *)

Inductive Result (A : Type) :=
  | Done (a : A) (w : World)         (* normal return *)
  | Threw (what : string) (w : World) (* a C++ exception leaves the call *)
  | Fault                            (* dereference of an empty handle or
                                        null pointer: undefined from here *)
  | Timeout.                         (* fuel exhausted *)
Arguments Done {A} a w.
Arguments Threw {A} what w.
Arguments Fault {A}.
Arguments Timeout {A}.

Definition M (A : Type) : Type := World → Result A.

#[global] Instance M_ret : MRet M := λ A a w, Done a w.

#[global] Instance M_bind : MBind M := λ A B f m w,
  match m w with
  | Done a w' => f a w'
  | Threw what w' => Threw what w'
  | Fault => Fault
  | Timeout => Timeout
  end.

Definition throw {A} (what : string) : M A := λ w, Threw what w.
Definition fault {A} : M A := λ _, Fault.
Definition emit (ev : Event) : M unit := λ w, Done tt (log [ev] w).

(** A call into the engine API that only observes: it is recorded and
    yields the observation. *)
Definition v8 {A} (api : string) (a : A) : M A := λ w, Done a (log [Engine api] w).

(** [handle->...]: follows the handle; undefined on an empty one. *)
Definition deref (h : Handle) : M Value :=
  match h with
  | Some v => mret v
  | None => fault
  end.

(** ** The engine API the proxy layer reads back *)

Definition object_of (w : World) (obj : Value) : ObjectData :=
  default empty_object (heap w !! address obj).

Definition update_object (obj : Value) (f : ObjectData → ObjectData)
    (w : World) : World :=
  set_heap (<[address obj := f (object_of w obj)]> (heap w)) w.

(** How [GetInternalField] shows a slot: an aligned pointer is stored as a
    small integer, so it is neither undefined nor an external. *)
Definition field_value (s : Slot) : Value :=
  match s with
  | SlotValue v => v
  | SlotAlignedPointer _ => Integer_New 0
  end.

Definition InternalFieldCount (obj : Value) : M Z := λ w,
  Done (Z.of_nat (length (InternalFields (object_of w obj))))
       (log [Engine "InternalFieldCount"] w).

Definition GetInternalField (obj : Value) (i : nat) : M Value := λ w,
  match InternalFields (object_of w obj) !! i with
  | Some s => Done (field_value s) (log [Engine "GetInternalField"] w)
  | None => Fault
  end.

Definition GetAlignedPointerFromInternalField (obj : Value) (i : nat)
    : M (option ProxyBase) := λ w,
  match InternalFields (object_of w obj) !! i with
  | Some (SlotAlignedPointer p) =>
      Done p (log [Engine "GetAlignedPointerFromInternalField"] w)
  | _ => Fault
  end.

Definition store_slot (i : nat) (s : Slot) (o : ObjectData) : ObjectData :=
  mkObjectData (<[i := s]> (InternalFields o)) (HiddenValues o).

Definition SetInternalField (obj : Value) (i : nat) (v : Value) : M unit := λ w,
  if decide (i < length (InternalFields (object_of w obj)))%nat
  then Done tt (log [Engine "SetInternalField"]
                  (update_object obj (store_slot i (SlotValue v)) w))
  else Fault.

Definition SetAlignedPointerInInternalField (obj : Value) (i : nat)
    (p : option ProxyBase) : M unit := λ w,
  if decide (i < length (InternalFields (object_of w obj)))%nat
  then Done tt (log [Engine "SetAlignedPointerInInternalField"]
                  (update_object obj (store_slot i (SlotAlignedPointer p)) w))
  else Fault.

Definition GetHiddenValue (obj : Value) (key : string) : M Handle := λ w,
  Done (HiddenValues (object_of w obj) !! key) (log [Engine "GetHiddenValue"] w).

Definition store_hidden (key : string) (v : Value) (o : ObjectData) : ObjectData :=
  mkObjectData (InternalFields o) (<[key := v]> (HiddenValues o)).

Definition SetHiddenValue (obj : Value) (key : string) (v : Value) : M bool := λ w,
  Done true (log [Engine "SetHiddenValue"] (update_object obj (store_hidden key v) w)).

(** Property keys of the exported object operations. *)
Inductive Key :=
  | Named (name : string)
  | Indexed (index : Z).

(** Engine operations whose meaning is the script language's own (property
    lookup, assignment, deletion, enumeration, prototype): taken as given. *)
Class ObjectApi := {
  Object_Get : Value → Key → M Handle;
  Object_Set : Value → Key → Handle → option Z → M bool;
  Object_Delete : Value → Key → M bool;
  Object_GetPropertyNames : Value → M Handle;
  Object_GetOwnPropertyNames : Value → M Handle;
  Object_GetPropertyAttributes : Value → Key → M Z;
  Object_GetPrototype : Value → M Handle
}.

(** Members of V8EngineProxy, HandleValue and _StringItem that the given
    sources call but do not define: taken as given. *)
Class EngineProxyMembers := {
  GetHandleProxy : Handle → M HandleProxy;
  DisposeHandleProxy : HandleProxy → M HandleProxy;
  GetNativeString : Value → M string;
  StringItem_new : Handle → M string;
  StringItem_Dispose : string → M unit;
  HandleValue_Dispose : HandleValue → HandleValue
}.

(** Modelled from the spec: V8EngineProxy::IsDisposed is not among the given
    sources.  The spec describes an engine-disposed table indexed by engine
    identifier, consulted before engine memory is touched; ProxyTypes.h
    declares it as the static [vector<bool> _DisposedEngines]. *)
Definition IsDisposed (engineID : Z) : M bool := λ w,
  Done (if engineID <? 0 then false
        else default false (_DisposedEngines w !! Z.to_nat engineID)) w.

(** The engine with this identifier has been torn down. *)
Definition torn_down (w : World) (engineID : Z) : Prop :=
  IsDisposed engineID w = Done true w.

(** ** HandleProxy.cpp *)

Module HandleProxy_cpp.
Section methods.
Context `{!EngineProxyMembers}.

(** [HandleProxy::_Dispose] and [HandleProxy::~HandleProxy].  The lock guard
    of [_Dispose] is an unnamed temporary, so the mutex is released at the
    end of that statement.  [delete this] runs the destructor, whose first
    statement is [_Dispose(false)].  The second component of the result is
    the handle afterwards, [None] once its storage is released. *)
Fixpoint _Dispose (fuel : nat) (_EngineProxy : V8EngineProxy.t)
    (registerDisposal : bool) (this : HandleProxy)
    : M (bool * option HandleProxy) :=
  match fuel with
  | O => λ _, Timeout
  | S fuel =>
      emit (Lock (V8EngineProxy._EngineID _EngineProxy));;
      emit (Unlock (V8EngineProxy._EngineID _EngineProxy));;
      gone ← IsDisposed (_EngineID this);
      if gone : bool then
        destructor fuel _EngineProxy this;;
        mret (false, None)
      else if _Disposed this =? 1 then
        if registerDisposal then
          this' ← DisposeHandleProxy this;
          mret (true, Some this')
        else
          mret (true,
                Some (set_Disposed 2
                        (set_Value (HandleValue_Dispose (_Value this))
                           (set_ManagedObjectID (-1) this))))
      else mret (false, Some this)
  end
with destructor (fuel : nat) (_EngineProxy : V8EngineProxy.t)
    (this : HandleProxy) : M unit :=
  match fuel with
  | O => λ _, Timeout
  | S fuel =>
      r ← _Dispose fuel _EngineProxy false this;
      match r.2 with
      | Some this' =>
          let _ := HandleValue_Dispose (_Value this') in mret tt
      | None => fault
      end
  end.

(** [HandleProxy::Dispose]. *)
Definition Dispose (fuel : nat) (_EngineProxy : V8EngineProxy.t)
    (this : HandleProxy) : M (bool * option HandleProxy) :=
  _Dispose fuel _EngineProxy true this.

(** The [if / else if] chain of [SetHandle], in source order: the engine
    test, and the tag assigned when it is the first to succeed. *)
Definition SetHandle_chain : list (string * (Value → bool) * JSValueType) :=
  [ ("IsBoolean", IsBoolean, JSV_Bool);
    ("IsBooleanObject", IsBooleanObject, JSV_BoolObject);
    ("IsInt32", IsInt32, JSV_Int32);
    ("IsNumber", IsNumber, JSV_Number);
    ("IsNumberObject", IsNumberObject, JSV_NumberObject);
    ("IsString", IsString, JSV_String);
    ("IsStringObject", IsStringObject, JSV_StringObject);
    ("IsDate", IsDate, JSV_Date);
    ("IsArray", IsArray, JSV_Array);
    ("IsRegExp", IsRegExp, JSV_RegExp);
    ("IsNull", IsNull, JSV_Object);
    ("IsFunction", IsFunction, JSV_Function);
    ("IsExternal", IsExternal, JSV_Undefined);
    ("IsNativeError", IsNativeError, JSV_Undefined);
    ("IsUndefined", IsUndefined, JSV_Undefined);
    ("IsObject", IsObject, JSV_Object);
    ("IsFalse", IsFalse, JSV_Bool);
    ("IsTrue", IsTrue, JSV_Bool) ].

Fixpoint first_match (chain : list (string * (Value → bool) * JSValueType))
    (v : Value) : M JSValueType :=
  match chain with
  | [] => mret JSV_Undefined
  | (api, test, tag) :: rest =>
      b ← v8 api (test v);
      if b : bool then mret tag else first_match rest v
  end.

(** [HandleProxy::SetHandle]. *)
Definition SetHandle (this : HandleProxy) (handle : Handle) : M HandleProxy :=
  (if _Handle this is Some _
   then v8 "Persistent::Dispose" tt;; v8 "Persistent::Clear" tt
   else mret tt);;
  v8 "Persistent::New" tt;;
  let this := set_Handle handle this in
  v ← deref (_Handle this);
  tag ← first_match SetHandle_chain v;
  mret (set_Type tag this).

(** [HandleProxy::Initialize]. *)
Definition Initialize (fuel : nat) (_EngineProxy : V8EngineProxy.t)
    (this : HandleProxy) (handle : Handle) : M HandleProxy :=
  this ← (if 0 <? _Disposed this
          then r ← _Dispose fuel _EngineProxy false this;
               (if r.2 is Some this' then mret this' else fault)
          else mret this);
  this ← SetHandle this handle;
  mret (set_Disposed 0 this).

(** [HandleProxy::GetManagedObjectID]. *)
Definition GetManagedObjectID (this : HandleProxy) : M (Z * HandleProxy) :=
  if (_ManagedObjectID this <? -1) || (0 <=? _ManagedObjectID this)
  then mret (_ManagedObjectID this, this)
  else
    let this := set_ManagedObjectID (-2) this in
    v ← deref (_Handle this);
    is_object ← v8 "IsObject" (IsObject v);
    this ← (if is_object : bool then
              count ← InternalFieldCount v;
              if 1 <? count then
                field ← GetInternalField v 1;
                is_external ← v8 "IsExternal" (IsExternal field);
                if is_external : bool
                then mret (set_ManagedObjectID
                             (to_int32 (External_Value field)) this)
                else mret this
              else
                handle ← GetHiddenValue v "ManagedObjectID";
                match handle with
                | Some hv =>
                    is_int32 ← v8 "IsInt32" (IsInt32 hv);
                    if is_int32 : bool
                    then mret (set_ManagedObjectID
                                 (to_int32 (Int32Value hv)) this)
                    else mret this
                | None => mret this
                end
            else mret this);
    mret (_ManagedObjectID this, this).

(** [HandleProxy::MakeWeak] and [HandleProxy::MakeStrong]. *)
Definition MakeWeak (_EngineProxy : V8EngineProxy.t) (this : HandleProxy)
    : M HandleProxy :=
  v8 "Persistent::MakeWeak" tt;; mret this.

Definition MakeStrong (_EngineProxy : V8EngineProxy.t) (this : HandleProxy)
    : M HandleProxy :=
  v8 "Persistent::ClearWeak" tt;; mret this.

(** [HandleProxy::_RevivableCallback]; [engineProxy] is the isolate's data
    and [handleProxy] the callback's parameter. *)
Definition _RevivableCallback (engineProxy : V8EngineProxy.t)
    (handleProxy : HandleProxy) : M HandleProxy :=
  dispose ←
    match V8EngineProxy._ManagedV8GarbageCollectionRequestCallback engineProxy with
    | Some callback =>
        if 0 <=? _ManagedObjectID handleProxy
        then emit (Host "ManagedV8GarbageCollectionRequestCallback");;
             mret (callback handleProxy)
        else mret true
    | None => mret true
    end;
  if dispose : bool then
    if _Handle handleProxy is Some _ then
      v8 "Persistent::Dispose" tt;;
      v8 "Persistent::Clear" tt;;
      mret (set_Handle None handleProxy)
    else mret handleProxy
  else mret handleProxy.

(** [HandleProxy::UpdateValue]. *)
Definition UpdateValue (this : HandleProxy) : M HandleProxy :=
  let value := HandleValue_Dispose (_Value this) in
  value ←
    match _Type this with
    | JSV_Bool | JSV_BoolObject =>
        v ← deref (_Handle this);
        b ← v8 "BooleanValue" (BooleanValue v);
        mret (mkHandleValue (V8Boolean b) (V8String value))
    | JSV_Int32 =>
        v ← deref (_Handle this);
        n ← v8 "Int32Value" (Int32Value v);
        mret (mkHandleValue (V8Integer n) (V8String value))
    | JSV_Number | JSV_NumberObject =>
        v ← deref (_Handle this);
        d ← v8 "NumberValue" (NumberValue v);
        mret (mkHandleValue (V8Number d) (V8String value))
    | JSV_String | JSV_StringObject =>
        s ← StringItem_new (_Handle this);
        mret (mkHandleValue (scalar value) (Some s))
    | JSV_Date =>
        v ← deref (_Handle this);
        d ← v8 "NumberValue" (NumberValue v);
        s ← StringItem_new (_Handle this);
        mret (mkHandleValue (V8Number d) (Some s))
    | JSV_Undefined =>
        mret (mkHandleValue (V8Number 0) (V8String value))
    | _ =>
        if _Handle this is Some v then
          str ← v8 "ToString" (string_value (ToString v));
          s ← StringItem_new (Some str);
          mret (mkHandleValue (scalar value) (Some s))
        else mret value
    end;
  mret (set_Value value this).

End methods.
End HandleProxy_cpp.

(** ** ObjectTemplateProxy.cpp *)

(** [v8::AccessorInfo], as far as the dispatcher reads it. *)
Module AccessorInfo.
Record t := mk {
  Holder : Value;
  This : Value;
  Data : Handle
}.
End AccessorInfo.

Module ObjectTemplateProxy_cpp.
Section dispatch.
Context `{!EngineProxyMembers}.

(** [ObjectTemplateProxy::GetProperty(Local<String>, const AccessorInfo&)].
    The result is the handle given back to the engine; the empty handle
    means the access was not intercepted. *)
Definition GetProperty (hName : Value) (info : AccessorInfo.t) : M Handle :=
  let obj := AccessorInfo.Holder info in
  count ← InternalFieldCount obj;
  if 1 <? count then
    field ← GetInternalField obj 0;
    is_undefined ← v8 "IsUndefined" (IsUndefined field);
    if negb is_undefined then
      pointer ← GetAlignedPointerFromInternalField obj 0;
      match pointer with
      | Some target =>
          if decide (ProxyBase_Type target = ObjectTemplateProxyClass) then
            match target with
            | ToObjectTemplate proxy =>
                id_field ← GetInternalField obj 1;
                payload ← v8 "External::Value" (External_Value id_field);
                let managedObjectID := to_int32 payload in
                let maInfo :=
                  mkManagedAccessorInfo (ObjectTemplateProxy.this proxy)
                    managedObjectID (AccessorInfo.Data info)
                    (AccessorInfo.This info) in
                str ← GetNativeString hName;
                match ObjectTemplateProxy.NamedPropertyGetter proxy with
                | Some getter =>
                    emit (Host "NamedPropertyGetter");;
                    let result := getter str maInfo in
                    StringItem_Dispose str;;
                    match result with
                    | Some result => mret (HandleProxy_Handle result)
                    | None => mret None
                    end
                | None => fault
                end
            | ToFunctionTemplate _ => fault
            end
          else mret None
      | None => mret None
      end
    else mret None
  else mret None.

End dispatch.
End ObjectTemplateProxy_cpp.

(** ** FunctionTemplateProxy.cpp *)

(** [v8::Arguments]: [Data] is the external wrapping the function template
    proxy, [values] the script arguments in order. *)
Module Arguments.
Record t := mk {
  Data : FunctionTemplateProxy.t;
  values : list Value;
  Holder : Value;
  IsConstructCall : bool
}.
End Arguments.

Module FunctionTemplateProxy_cpp.
Section bridge.
Context `{!EngineProxyMembers}.

(** The loop filling [_args]. *)
Fixpoint wrap_arguments (values : list Value) : M (list HandleProxy) :=
  match values with
  | [] => mret []
  | v :: rest =>
      p ← GetHandleProxy (Some v);
      ps ← wrap_arguments rest;
      mret (p :: ps)
  end.

(** [FunctionTemplateProxy::InvocationCallbackProxy].  [ThrowException]
    schedules the exception in the engine and returns undefined. *)
Definition InvocationCallbackProxy (args : Arguments.t) : M Handle :=
  let funcTempProxy := Arguments.Data args in
  match FunctionTemplateProxy._ManagedCallback funcTempProxy with
  | Some callback =>
      let argLength := Z.of_nat (length (Arguments.values args)) in
      _args ← wrap_arguments (Arguments.values args);
      _this ← GetHandleProxy (Some (Arguments.Holder args));
      emit (Host "ManagedJSFunctionCallback");;
      let result :=
        callback 0 (Arguments.IsConstructCall args) _this _args argLength in
      match result with
      | Some result =>
          if IsError result then
            v ← deref (HandleProxy_Handle result);
            message ← v8 "ToString" (ToString v);
            emit (ThrowException message);;
            mret (Some v8_Undefined)
          else mret (HandleProxy_Handle result)
      | None => mret None
      end
  | None => mret None
  end.

End bridge.
End FunctionTemplateProxy_cpp.

(** ** Exports.cpp *)

Module Exports_cpp.
Section exports.
Context `{!EngineProxyMembers} `{!ObjectApi}.

(** The guard
    [if (handle.IsEmpty() || !handle->Is...()) throw exception(what);]. *)
Definition require (api : string) (test : Value → bool) (what : string)
    (handle : Handle) : M Value :=
  match handle with
  | None => throw what
  | Some v =>
      ok ← v8 api (test v);
      if ok : bool then mret v else throw what
  end.

Definition not_an_object : string :=
  "The handle does not represent an object.".
Definition not_an_array : string :=
  "The handle does not represent an array object.".

(** [ConnectObject]; [templateProxy] is the [void*] back-reference. *)
Definition ConnectObject (handleProxy : HandleProxy) (managedObjectID : Z)
    (templateProxy : option ProxyBase) : M HandleProxy :=
  let handle := HandleProxy_Handle handleProxy in
  match handle with
  | Some obj =>
      is_object ← v8 "IsObject" (IsObject obj);
      if is_object : bool then
        count ← InternalFieldCount obj;
        (if 1 <? count then
           (if templateProxy is Some _
            then SetAlignedPointerInInternalField obj 0 templateProxy
            else mret tt);;
           SetInternalField obj 1 (External_New (to_pointer managedObjectID))
         else mret tt);;
        SetHiddenValue obj "ManagedObjectID" (Integer_New managedObjectID);;
        mret tt
      else mret tt
  | None => mret tt
  end;;
  mret (SetManagedObjectID managedObjectID handleProxy).

Definition GetObjectPrototype (handleProxy : HandleProxy) : M HandleProxy :=
  let handle := HandleProxy_Handle handleProxy in
  obj ← require "IsObject" IsObject not_an_object handle;
  prototype ← Object_GetPrototype obj;
  GetHandleProxy prototype.

(** [value != nullptr ? value->Handle() : v8::Undefined()]. *)
Definition value_or_undefined (value : option HandleProxy) : Handle :=
  match value with
  | Some value => HandleProxy_Handle value
  | None => Some v8_Undefined
  end.

Definition SetObjectPropertyByName (proxy : HandleProxy) (name : string)
    (value : option HandleProxy) (attribs : Z) : M bool :=
  let handle := HandleProxy_Handle proxy in
  obj ← require "IsObject" IsObject not_an_object handle;
  Object_Set obj (Named name) (value_or_undefined value) (Some attribs).

Definition SetObjectPropertyByIndex (proxy : HandleProxy) (index : Z)
    (value : option HandleProxy) : M bool :=
  let handle := HandleProxy_Handle proxy in
  obj ← require "IsObject" IsObject not_an_object handle;
  Object_Set obj (Indexed index) (value_or_undefined value) None.

Definition GetObjectPropertyByName (proxy : HandleProxy) (name : string)
    : M HandleProxy :=
  let handle := HandleProxy_Handle proxy in
  obj ← require "IsObject" IsObject not_an_object handle;
  property ← Object_Get obj (Named name);
  GetHandleProxy property.

Definition GetObjectPropertyByIndex (proxy : HandleProxy) (index : Z)
    : M HandleProxy :=
  let handle := HandleProxy_Handle proxy in
  obj ← require "IsObject" IsObject not_an_object handle;
  property ← Object_Get obj (Indexed index);
  GetHandleProxy property.

Definition DeleteObjectPropertyByName (proxy : HandleProxy) (name : string)
    : M bool :=
  let handle := HandleProxy_Handle proxy in
  obj ← require "IsObject" IsObject not_an_object handle;
  Object_Delete obj (Named name).

Definition DeleteObjectPropertyByIndex (proxy : HandleProxy) (index : Z)
    : M bool :=
  let handle := HandleProxy_Handle proxy in
  obj ← require "IsObject" IsObject not_an_object handle;
  Object_Delete obj (Indexed index).

Definition GetPropertyNames (proxy : HandleProxy) : M HandleProxy :=
  let handle := HandleProxy_Handle proxy in
  obj ← require "IsObject" IsObject not_an_object handle;
  names ← Object_GetPropertyNames obj;
  GetHandleProxy names.

Definition GetOwnPropertyNames (proxy : HandleProxy) : M HandleProxy :=
  let handle := HandleProxy_Handle proxy in
  obj ← require "IsObject" IsObject not_an_object handle;
  names ← Object_GetOwnPropertyNames obj;
  GetHandleProxy names.

Definition GetPropertyAttributes (proxy : HandleProxy) (name : string) : M Z :=
  let handle := HandleProxy_Handle proxy in
  obj ← require "IsObject" IsObject not_an_object handle;
  Object_GetPropertyAttributes obj (Named name).

Definition GetArrayLength (proxy : HandleProxy) : M Z :=
  let handle := HandleProxy_Handle proxy in
  array ← require "IsArray" IsArray not_an_array handle;
  v8 "Array::Length" (to_int32 (Array_Length array)).

End exports.
End Exports_cpp.

(** ** The engine API of templates, functions and accessors *)

(** [v8::Boolean::New(b)]. *)
Definition Boolean_New (b : bool) : Value :=
  value_with [TBoolean; if b then TTrue else TFalse] b
    (if b then 1 else 0) (if b then "true" else "false") 0 0.

(** Engine operations that run the script engine's own machinery
    (instantiating a template, calling a function, installing an accessor):
    taken as given. *)
Class TemplateApi := {
  ObjectTemplate_NewInstance : ObjectTemplateProxy.t → M Handle;
  FunctionTemplate_GetFunction : FunctionTemplateProxy.t → M Handle;
  Function_NewInstance : Value → list Handle → M Handle;
  Function_Call : Value → Value → list Handle → M Handle;
  Object_SetAccessor : Value → string → Z → Z → M bool
}.

(** The host functions behind the function pointers handed to
    [SetObjectAccessor]; address 0 is nullptr. *)
Class HostCode := {
  getter_at : Z → option (HandleProxy → string → option HandleProxy);
  setter_at : Z → option (HandleProxy → string → HandleProxy →
                          option HandleProxy)
}.

(** ** ObjectTemplateProxy.cpp: the other dispatchers and CreateObject *)

Module ObjectTemplateProxy_handlers.
Section handlers.
Context `{!EngineProxyMembers} `{!TemplateApi}.

(** The opening every dispatcher repeats: the holder must carry more than
    one internal field, slot 0 must be set and must point to a proxy of
    type ObjectTemplateProxyClass; slot 1 is then read as the host object
    identifier and the operation's own part [body] runs.  Otherwise the
    empty handle is returned. *)
Definition with_template_proxy (info : AccessorInfo.t)
    (body : ObjectTemplateProxy.t → ManagedAccessorInfo → M Handle)
    : M Handle :=
  let obj := AccessorInfo.Holder info in
  count ← InternalFieldCount obj;
  if 1 <? count then
    field ← GetInternalField obj 0;
    is_undefined ← v8 "IsUndefined" (IsUndefined field);
    if negb is_undefined then
      pointer ← GetAlignedPointerFromInternalField obj 0;
      match pointer with
      | Some target =>
          if decide (ProxyBase_Type target = ObjectTemplateProxyClass) then
            match target with
            | ToObjectTemplate proxy =>
                id_field ← GetInternalField obj 1;
                payload ← v8 "External::Value" (External_Value id_field);
                let managedObjectID := to_int32 payload in
                body proxy
                  (mkManagedAccessorInfo (ObjectTemplateProxy.this proxy)
                     managedObjectID (AccessorInfo.Data info)
                     (AccessorInfo.This info))
            | ToFunctionTemplate _ => fault
            end
          else mret None
      | None => mret None
      end
    else mret None
  else mret None.

(** [if (result != nullptr) return result->Handle();] and the empty handle
    otherwise. *)
Definition handle_or_empty (result : option HandleProxy) : Handle :=
  match result with
  | Some result => HandleProxy_Handle result
  | None => None
  end.

(** [ObjectTemplateProxy::SetProperty(Local<String>, Local<Value>, ...)]. *)
Definition SetProperty (hName : Value) (value : Value)
    (info : AccessorInfo.t) : M Handle :=
  with_template_proxy info (λ proxy maInfo,
    str ← GetNativeString hName;
    val ← GetHandleProxy (Some value);
    match ObjectTemplateProxy.NamedPropertySetter proxy with
    | Some setter =>
        emit (Host "NamedPropertySetter");;
        let result := setter str val maInfo in
        StringItem_Dispose str;;
        mret (handle_or_empty result)
    | None => fault
    end).

(** [ObjectTemplateProxy::GetPropertyAttributes(Local<String>, ...)]. *)
Definition GetPropertyAttributes (hName : Value) (info : AccessorInfo.t)
    : M Handle :=
  with_template_proxy info (λ proxy maInfo,
    str ← GetNativeString hName;
    match ObjectTemplateProxy.NamedPropertyQuery proxy with
    | Some query =>
        emit (Host "NamedPropertyQuery");;
        let result := query str maInfo in
        StringItem_Dispose str;;
        if 0 <=? result then mret (Some (Integer_New result)) else mret None
    | None => fault
    end).

(** [ObjectTemplateProxy::DeleteProperty(Local<String>, ...)]. *)
Definition DeleteProperty (hName : Value) (info : AccessorInfo.t)
    : M Handle :=
  with_template_proxy info (λ proxy maInfo,
    str ← GetNativeString hName;
    match ObjectTemplateProxy.NamedPropertyDeleter proxy with
    | Some deleter =>
        emit (Host "NamedPropertyDeleter");;
        let result := deleter str maInfo in
        StringItem_Dispose str;;
        if 0 <=? result
        then mret (Some (Boolean_New (negb (result =? 0))))
        else mret None
    | None => fault
    end).

(** [ObjectTemplateProxy::GetPropertyNames]. *)
Definition GetPropertyNames (info : AccessorInfo.t) : M Handle :=
  with_template_proxy info (λ proxy maInfo,
    match ObjectTemplateProxy.NamedPropertyEnumerator proxy with
    | Some enumerator =>
        emit (Host "NamedPropertyEnumerator");;
        mret (handle_or_empty (enumerator maInfo))
    | None => fault
    end).

(** [ObjectTemplateProxy::GetProperty(uint32_t, ...)]. *)
Definition GetProperty_indexed (index : Z) (info : AccessorInfo.t)
    : M Handle :=
  with_template_proxy info (λ proxy maInfo,
    match ObjectTemplateProxy.IndexedPropertyGetter proxy with
    | Some getter =>
        emit (Host "IndexedPropertyGetter");;
        mret (handle_or_empty (getter index maInfo))
    | None => fault
    end).

(** [ObjectTemplateProxy::SetProperty(uint32_t, Local<Value>, ...)]. *)
Definition SetProperty_indexed (index : Z) (value : Value)
    (info : AccessorInfo.t) : M Handle :=
  with_template_proxy info (λ proxy maInfo,
    val ← GetHandleProxy (Some value);
    match ObjectTemplateProxy.IndexedPropertySetter proxy with
    | Some setter =>
        emit (Host "IndexedPropertySetter");;
        mret (handle_or_empty (setter index val maInfo))
    | None => fault
    end).

(** [ObjectTemplateProxy::GetPropertyAttributes(uint32_t, ...)]. *)
Definition GetPropertyAttributes_indexed (index : Z)
    (info : AccessorInfo.t) : M Handle :=
  with_template_proxy info (λ proxy maInfo,
    match ObjectTemplateProxy.IndexedPropertyQuery proxy with
    | Some query =>
        emit (Host "IndexedPropertyQuery");;
        let result := query index maInfo in
        if 0 <=? result then mret (Some (Integer_New result)) else mret None
    | None => fault
    end).

(** [ObjectTemplateProxy::DeleteProperty(uint32_t, ...)]. *)
Definition DeleteProperty_indexed (index : Z) (info : AccessorInfo.t)
    : M Handle :=
  with_template_proxy info (λ proxy maInfo,
    match ObjectTemplateProxy.IndexedPropertyDeleter proxy with
    | Some deleter =>
        emit (Host "IndexedPropertyDeleter");;
        let result := deleter index maInfo in
        if 0 <=? result
        then mret (Some (Boolean_New (negb (result =? 0))))
        else mret None
    | None => fault
    end).

(** [ObjectTemplateProxy::GetPropertyIndices]. *)
Definition GetPropertyIndices (info : AccessorInfo.t) : M Handle :=
  with_template_proxy info (λ proxy maInfo,
    match ObjectTemplateProxy.IndexedPropertyEnumerator proxy with
    | Some enumerator =>
        emit (Host "IndexedPropertyEnumerator");;
        mret (handle_or_empty (enumerator maInfo))
    | None => fault
    end).

(** [ObjectTemplateProxy::CreateObject]; the proxy returned is the one
    [ConnectObject] has written to. *)
Definition CreateObject (this : ObjectTemplateProxy.t) (managedObjectID : Z)
    : M HandleProxy :=
  obj ← ObjectTemplate_NewInstance this;
  proxyVal ← GetHandleProxy obj;
  Exports_cpp.ConnectObject proxyVal managedObjectID
    (Some (ToObjectTemplate this)).

End handlers.
End ObjectTemplateProxy_handlers.

(** ** FunctionTemplateProxy.cpp: GetFunction and CreateInstance *)

Module FunctionTemplateProxy_instances.
Section instances.
Context `{!EngineProxyMembers} `{!TemplateApi}.

(** [FunctionTemplateProxy::GetFunction]. *)
Definition GetFunction (this : FunctionTemplateProxy.t) : M HandleProxy :=
  obj ← FunctionTemplate_GetFunction this;
  GetHandleProxy obj.

(** [FunctionTemplateProxy::CreateInstance]; [args] stands for the array
    [args] of [argCount] handle proxies. *)
Definition CreateInstance (this : FunctionTemplateProxy.t)
    (managedObjectID : Z) (args : list HandleProxy) : M HandleProxy :=
  let hArgs := HandleProxy_Handle <$> args in
  function ← FunctionTemplate_GetFunction this;
  function ← deref function;
  obj ← Function_NewInstance function hArgs;
  proxyVal ← GetHandleProxy obj;
  let proxyVal := set_ManagedObjectID managedObjectID proxyVal in
  instance ← deref obj;
  SetAlignedPointerInInternalField instance 0 (Some (ToFunctionTemplate this));;
  SetInternalField instance 1 (External_New (to_pointer managedObjectID));;
  SetHiddenValue instance "ManagedObjectID" (Integer_New managedObjectID);;
  mret proxyVal.

End instances.
End FunctionTemplateProxy_instances.

(** ** Exports.cpp: Call and the accessors of ad hoc objects *)

Module Exports_calls.
Section calls.
Context `{!EngineProxyMembers} `{!ObjectApi} `{!TemplateApi} `{!HostCode}.

Definition this_not_an_object : string :=
  "Call: The target instance handle ('this') does not represent an object.".
Definition subject_not_an_object : string :=
  "Call: The subject handle does not represent an object.".
Definition property_not_a_function : string :=
  "Call: The specified property does not represent a function.".
Definition subject_not_a_function : string :=
  "Call: The subject handle does not represent a function.".

(** [Call]; [functionName] and [_this] are [None] for nullptr, [args]
    stands for the array [args] of [argCount] handle proxies. *)
Definition Call (subject : HandleProxy) (functionName : option string)
    (_this : option HandleProxy) (args : list HandleProxy)
    : M (option HandleProxy) :=
  let _this := if _this is Some t then t else subject in
  let hThis := HandleProxy_Handle _this in
  hThis ← Exports_cpp.require "IsObject" IsObject this_not_an_object hThis;
  let hSubject := HandleProxy_Handle subject in
  hFunc ←
    match functionName with
    | Some functionName =>
        subject_object ← Exports_cpp.require "IsObject" IsObject
                           subject_not_an_object hSubject;
        hProp ← Object_Get subject_object (Named functionName);
        Exports_cpp.require "IsFunction" IsFunction property_not_a_function
          hProp
    | None =>
        Exports_cpp.require "IsFunction" IsFunction subject_not_a_function
          hSubject
    end;
  result ← Function_Call hFunc hThis (HandleProxy_Handle <$> args);
  match result with
  | None => mret None
  | Some _ => proxy ← GetHandleProxy result; mret (Some proxy)
  end.

(** [SetObjectAccessor]; [getter] and [setter] are the addresses of the
    host functions. *)
Definition SetObjectAccessor (proxy : HandleProxy) (managedObjectID : Z)
    (name : string) (getter setter : Z) (access attributes : Z) : M unit :=
  let handle := HandleProxy_Handle proxy in
  obj ← Exports_cpp.require "IsObject" IsObject Exports_cpp.not_an_object
          handle;
  SetHiddenValue obj "ManagedObjectID" (Integer_New managedObjectID);;
  SetHiddenValue obj "_Getter_" (External_New getter);;
  SetHiddenValue obj "_Setter_" (External_New setter);;
  Object_SetAccessor obj name access attributes;;
  mret tt.

(** The test [!hID->IsUndefined() && hAccessor->IsExternal()] of the two
    accessor callbacks, both handles being followed as they are. *)
Definition accessor_installed (hID hAccessor : Handle) : M bool :=
  id_value ← deref hID;
  is_undefined ← v8 "IsUndefined" (IsUndefined id_value);
  if is_undefined : bool then mret false
  else
    accessor ← deref hAccessor;
    v8 "IsExternal" (IsExternal accessor).

(** [_GetObjectProperty]. *)
Definition _GetObjectProperty (hName : Value) (info : AccessorInfo.t)
    : M Handle :=
  let obj := AccessorInfo.Holder info in
  hID ← GetHiddenValue obj "ManagedObjectID";
  hGetter ← GetHiddenValue obj "_Getter_";
  installed ← accessor_installed hID hGetter;
  if installed : bool then
    id_value ← deref hID;
    n ← v8 "Int32Value" (Int32Value id_value);
    let managedObjectID := to_int32 n in
    accessor ← deref hGetter;
    getter ← v8 "External::Value" (External_Value accessor);
    if (0 <=? managedObjectID) && negb (getter =? 0) then
      match getter_at getter with
      | Some getter =>
          _this ← GetHandleProxy (Some (AccessorInfo.This info));
          str ← GetNativeString hName;
          emit (Host "ManagedAccessorGetter");;
          let result := getter _this str in
          StringItem_Dispose str;;
          match result with
          | Some result => mret (HandleProxy_Handle result)
          | None => mret (Some v8_Undefined)
          end
      | None => fault
      end
    else mret (Some v8_Undefined)
  else mret (Some v8_Undefined).

(** [_SetObjectProperty]. *)
Definition _SetObjectProperty (hName : Value) (value : Value)
    (info : AccessorInfo.t) : M unit :=
  let obj := AccessorInfo.Holder info in
  hID ← GetHiddenValue obj "ManagedObjectID";
  hSetter ← GetHiddenValue obj "_Setter_";
  installed ← accessor_installed hID hSetter;
  if installed : bool then
    id_value ← deref hID;
    n ← v8 "Int32Value" (Int32Value id_value);
    let managedObjectID := to_int32 n in
    accessor ← deref hSetter;
    setter ← v8 "External::Value" (External_Value accessor);
    if (0 <=? managedObjectID) && negb (setter =? 0) then
      match setter_at setter with
      | Some setter =>
          _this ← GetHandleProxy (Some (AccessorInfo.This info));
          str ← GetNativeString hName;
          _value ← GetHandleProxy (Some value);
          emit (Host "ManagedAccessorSetter");;
          let _ := setter _this str _value in
          StringItem_Dispose str
      | None => fault
      end
    else mret tt
  else mret tt.

End calls.
End Exports_calls.

(** ** Vocabulary of the properties *)

#[global] Arguments object_of : simpl never.
#[global] Arguments log : simpl never.

Definition is_mutex_event (ev : Event) : bool :=
  match ev with Lock _ | Unlock _ => true | _ => false end.

Definition is_engine_call (ev : Event) : bool :=
  match ev with Engine _ => true | _ => false end.

Definition is_throw (ev : Event) : bool :=
  match ev with ThrowException _ => true | _ => false end.

(** No event of the list is a mutex operation / an engine call / a
    scheduled script exception. *)
Definition mutex_free (evs : list Event) : bool :=
  forallb (λ ev, negb (is_mutex_event ev)) evs.
Definition engine_free (evs : list Event) : bool :=
  forallb (λ ev, negb (is_engine_call ev)) evs.
Definition throw_free (evs : list Event) : bool :=
  forallb (λ ev, negb (is_throw ev)) evs.

Definition gc_request : Event :=
  Host "ManagedV8GarbageCollectionRequestCallback".

(** The engine calls that release and clear a persistent reference; none
    is made for a handle whose reference is already empty. *)
Definition release_events (h : HandleProxy) : list Event :=
  if _Handle h is Some _
  then [Engine "Persistent::Dispose"; Engine "Persistent::Clear"]
  else [].

Definition consulted (evs : list Event) : bool :=
  bool_decide (gc_request ∈ evs).

(** Everything but the probe is the same in both worlds. *)
Definition unchanged (w w' : World) : Prop :=
  heap w' = heap w ∧ _DisposedEngines w' = _DisposedEngines w ∧
  _Handles w' = _Handles w ∧ _DisposedHandles w' = _DisposedHandles w ∧
  _Strings w' = _Strings w.

(** The handle references a value passing [test]. *)
Definition references (test : Value → bool) (handle : Handle) : bool :=
  if handle is Some v then test v else false.

(** The computation [m] fails with the exception [what], leaving engine
    objects and pools as they were. *)
Definition fails_with {A} (what : string) (m : M A) (w : World) : Prop :=
  ∃ w', m w = Threw what w' ∧ unchanged w w'.

(** Host-object-identity resolution as the specification words it: slot 1
    of an object with at least two internal fields when it is an external,
    otherwise the hidden marker of an object without that layout, and -2
    when nothing is found. *)
Definition resolve_spec (w : World) (v : Value) : Z :=
  let o := object_of w v in
  if IsObject v then
    if 2 <=? Z.of_nat (length (InternalFields o)) then
      match InternalFields o !! 1%nat with
      | Some s =>
          if IsExternal (field_value s)
          then to_int32 (External_Value (field_value s))
          else -2
      | None => -2
      end
    else
      match HiddenValues o !! "ManagedObjectID" with
      | Some marker =>
          if IsInt32 marker then to_int32 (Int32Value marker) else -2
      | None => -2
      end
  else -2.

(** The value kinds the specification lists for the kind tag. *)
Inductive Kind :=
  | KBoolean | KInt | KNumber | KString | KDate | KArray | KFunction
  | KObject | KRegExp | KError | KUndefined.

(** The kind each tag stands for. *)
Definition Kind_of (t : JSValueType) : Kind :=
  match t with
  | JSV_ExecutionError | JSV_CompilerError | JSV_InternalError => KError
  | JSV_Undefined => KUndefined
  | JSV_Null | JSV_Object => KObject
  | JSV_Bool | JSV_BoolObject => KBoolean
  | JSV_Int32 => KInt
  | JSV_Number | JSV_NumberObject => KNumber
  | JSV_String | JSV_StringObject => KString
  | JSV_Function => KFunction
  | JSV_Date => KDate
  | JSV_Array => KArray
  | JSV_RegExp => KRegExp
  end.

(** The value is of the kind, by the engine's own tests. *)
Definition belongs_to (k : Kind) (v : Value) : bool :=
  match k with
  | KBoolean => IsBoolean v || IsBooleanObject v || IsTrue v || IsFalse v
  | KInt => IsInt32 v
  | KNumber => IsNumber v || IsNumberObject v
  | KString => IsString v || IsStringObject v
  | KDate => IsDate v
  | KArray => IsArray v
  | KFunction => IsFunction v
  | KObject => IsObject v
  | KRegExp => IsRegExp v
  | KError => IsNativeError v
  | KUndefined => IsUndefined v
  end.

(** The handle's kind tag correctly classifies its underlying value. *)
Definition tag_classifies (h : HandleProxy) : bool :=
  if _Handle h is Some v then belongs_to (Kind_of (_Type h)) v else false.

(** The tag of the first test of the chain that succeeds. *)
Fixpoint chain_tag (chain : list (string * (Value → bool) * JSValueType))
    (v : Value) : JSValueType :=
  match chain with
  | [] => JSV_Undefined
  | (_, test, tag) :: rest => if test v then tag else chain_tag rest v
  end.

(** What ConnectObject leaves in an object: the marker is always stamped;
    the slots are written only when there are at least two of them, slot 0
    only for a non-null back-reference. *)
Definition connected_fields (id : Z) (tp : option ProxyBase)
    (fields : list Slot) : list Slot :=
  if 2 <=? Z.of_nat (length fields) then
    <[1%nat := SlotValue (External_New (to_pointer id))]>
      (if tp is Some _ then <[0%nat := SlotAlignedPointer tp]> fields
       else fields)
  else fields.

Definition connected (id : Z) (tp : option ProxyBase) (o : ObjectData)
    : ObjectData :=
  mkObjectData (connected_fields id tp (InternalFields o))
    (<["ManagedObjectID" := Integer_New id]> (HiddenValues o)).

(** The engine calls the dispatcher makes before it marshals the name. *)
Definition dispatch_prelude : list Event :=
  [Engine "InternalFieldCount"; Engine "GetInternalField";
   Engine "IsUndefined"; Engine "GetAlignedPointerFromInternalField";
   Engine "GetInternalField"; Engine "External::Value"].

Definition is_host_call (ev : Event) : bool :=
  match ev with Host _ => true | _ => false end.

(** No event of the list is a call of a host function pointer. *)
Definition host_free (evs : list Event) : bool :=
  forallb (λ ev, negb (is_host_call ev)) evs.

(** The holder is not one the dispatchers intercept: it has fewer than two
    internal fields, or its slot 0 is still undefined, holds a null
    pointer, or points to a proxy that is not an object template proxy. *)
Definition not_intercepted (w : World) (obj : Value) : bool :=
  let fields := InternalFields (object_of w obj) in
  if 2 <=? Z.of_nat (length fields) then
    match fields !! 0%nat with
    | Some (SlotValue v) => IsUndefined v
    | Some (SlotAlignedPointer None) => true
    | Some (SlotAlignedPointer (Some target)) =>
        negb (bool_decide (ProxyBase_Type target = ObjectTemplateProxyClass))
    | None => true
    end
  else true.

(** The object template proxy and the host object identifier a holder is
    connected to, when it is. *)
Definition template_of (w : World) (obj : Value)
    : option (ObjectTemplateProxy.t * Z) :=
  let fields := InternalFields (object_of w obj) in
  match fields !! 0%nat, fields !! 1%nat with
  | Some (SlotAlignedPointer (Some (ToObjectTemplate proxy))), Some id_slot =>
      if decide (ObjectTemplateProxy.Type_ proxy = ObjectTemplateProxyClass)
      then Some (proxy, to_int32 (External_Value (field_value id_slot)))
      else None
  | _, _ => None
  end.

(** The dispatcher [m] declines: it gives the empty handle back, having
    called no host function and scheduled no exception, and leaves
    everything but the probe as it was. *)
Definition declines (m : M Handle) (w : World) : Prop :=
  ∃ evs, m w = Done None (log evs w) ∧
         host_free evs = true ∧ throw_free evs = true.

(** The engine operation [m] leaves the internal fields and hidden values
    of [obj] alone. *)
Definition keeps_object {A} (m : M A) (obj : Value) : Prop :=
  ∀ w a w', m w = Done a w' → object_of w' obj = object_of w obj.

(** The hidden values [SetObjectAccessor] stamps on an object. *)
Definition accessor_stamp (id getter setter : Z) (o : ObjectData)
    : ObjectData :=
  store_hidden "_Setter_" (External_New setter)
    (store_hidden "_Getter_" (External_New getter)
       (store_hidden "ManagedObjectID" (Integer_New id) o)).

(** The kind tags whose Value Box is read off the engine value without a
    test for an empty reference. *)
Definition reads_scalar (t : JSValueType) : bool :=
  match t with
  | JSV_Bool | JSV_BoolObject | JSV_Int32 | JSV_Number | JSV_NumberObject
  | JSV_Date => true
  | _ => false
  end.

(** The kind tags [UpdateValue] handles in its default branch. *)
Definition object_like (t : JSValueType) : bool :=
  match t with
  | JSV_Object | JSV_Function | JSV_Array | JSV_RegExp | JSV_Null
  | JSV_ExecutionError | JSV_CompilerError | JSV_InternalError => true
  | _ => false
  end.

(** The scalar [UpdateValue] stores for a value tagged [t], for the tags
    with a scalar. *)
Definition scalar_of (t : JSValueType) (v : Value) : option Scalar :=
  match t with
  | JSV_Bool | JSV_BoolObject => Some (V8Boolean (BooleanValue v))
  | JSV_Int32 => Some (V8Integer (Int32Value v))
  | JSV_Number | JSV_NumberObject | JSV_Date => Some (V8Number (NumberValue v))
  | JSV_Undefined => Some (V8Number 0)
  | _ => None
  end.

(** The engine calls an accessor callback makes before it calls host
    code. *)
Definition accessor_prelude : list Event :=
  [Engine "GetHiddenValue"; Engine "GetHiddenValue"; Engine "IsUndefined";
   Engine "IsExternal"; Engine "Int32Value"; Engine "External::Value"].

(** ** Sample data *)

Module Sample.

(** A registry that hands out a new record per value and a string pool
    that copies: stand-ins for the members defined outside the sources. *)
Definition members : EngineProxyMembers := {|
  GetHandleProxy handle :=
    HandleProxy_cpp.SetHandle
      (mkHandleProxy 0 (-1) JSV_InternalError
         (mkHandleValue (V8Number 0) None) 0 0 0 None) handle;
  DisposeHandleProxy h := mret (set_Disposed 2 h);
  GetNativeString v := mret (ToString v);
  StringItem_new handle := mret (if handle is Some v then ToString v else "");
  StringItem_Dispose _ := mret tt;
  HandleValue_Dispose _ := mkHandleValue (V8Number 0) None
|}.

Definition api : ObjectApi := {|
  Object_Get _ _ := mret None;
  Object_Set _ _ _ _ := mret true;
  Object_Delete _ _ := mret true;
  Object_GetPropertyNames _ := mret None;
  Object_GetOwnPropertyNames _ := mret None;
  Object_GetPropertyAttributes _ _ := mret 0;
  Object_GetPrototype _ := mret None
|}.

(** A handle record as the constructor leaves it, tracking [handle] with
    tag [tag]. *)
Definition handle_of (tag : JSValueType) (handle : Handle) : HandleProxy :=
  mkHandleProxy 0 (-1) tag (mkHandleValue (V8Number 0) None) 0 0 0 handle.

(** An object made from a host-aware template for host object 7, and an
    ad hoc object without internal fields. *)
Definition getter : ManagedNamedPropertyGetter := λ name _,
  if decide (name = "foo")
  then Some (handle_of JSV_String (Some (string_value "X")))
  else None.

Definition template : ObjectTemplateProxy.t :=
  ObjectTemplateProxy.mk 1 ObjectTemplateProxyClass 0 0
    (Some getter) None None None None None None None None None.

Definition function_template (callback : ManagedJSFunctionCallback)
    : FunctionTemplateProxy.t :=
  FunctionTemplateProxy.mk FunctionTemplateProxyClass 0 None None (Some callback).

Definition templated : Value := object_at_address 5.
Definition ad_hoc : Value := object_at_address 3.

Definition world : World :=
  mkWorld
    {[ 5%nat := mkObjectData
                  [SlotAlignedPointer (Some (ToObjectTemplate template));
                   SlotValue (External_New (to_pointer 7))] ∅;
       3%nat := empty_object ]}
    [false] [] [] [] [].

(** The same world once engine 0 has been torn down. *)
Definition after_teardown : World :=
  mkWorld (heap world) [true] [] [] [] [].

(** A host function answering every call with an execution error that
    carries "boom", and a script call of it with one argument. *)
Definition boom : ManagedJSFunctionCallback := λ _ _ _ _ _,
  Some (handle_of JSV_ExecutionError (Some (string_value "boom"))).

Definition call_of (callback : ManagedJSFunctionCallback) : Arguments.t :=
  Arguments.mk (function_template callback) [Integer_New 1] templated false.

Definition engine (callback : option ManagedV8GarbageCollectionRequestCallback)
    : V8EngineProxy.t :=
  V8EngineProxy.mk 0 callback.

(** An engine whose templates instantiate to a new object with two
    undefined internal fields at address 9, whose functions return nothing
    and whose accessor installation succeeds. *)
Definition new_instance : M Handle := λ w,
  Done (Some (object_at_address 9))
    (set_heap (<[9%nat := mkObjectData
                            [SlotValue v8_Undefined; SlotValue v8_Undefined]
                            ∅]> (heap w)) w).

Definition templates : TemplateApi := {|
  ObjectTemplate_NewInstance _ := new_instance;
  FunctionTemplate_GetFunction _ :=
    mret (Some (value_with [TFunction; TObject] true 0 "function" 0 8));
  Function_NewInstance _ _ := new_instance;
  Function_Call _ _ _ := mret None;
  Object_SetAccessor _ _ _ _ := mret true
|}.

(** Host code with one accessor getter, at address 64, answering "X". *)
Definition code : HostCode := {|
  getter_at p :=
    if p =? 64
    then Some (λ _ _, Some (handle_of JSV_String (Some (string_value "X"))))
    else None;
  setter_at _ := None
|}.

(** A template with every handler registered: names and indices below 10
    exist and cannot be deleted, anything else is left to the engine. *)
Definition full_template : ObjectTemplateProxy.t :=
  ObjectTemplateProxy.mk 2 ObjectTemplateProxyClass 0 0
    (Some getter)
    (Some (λ _ value _, Some value))
    (Some (λ name _, if decide (name = "foo") then 4 else -1))
    (Some (λ name _, if decide (name = "foo") then 0 else -1))
    (Some (λ _, None))
    (Some (λ index _, if index <? 10
                      then Some (handle_of JSV_Int32 (Some (Integer_New index)))
                      else None))
    (Some (λ _ value _, Some value))
    (Some (λ index _, if index <? 10 then 4 else -1))
    (Some (λ index _, if index <? 10 then 0 else -1))
    (Some (λ _, None)).

(** An instance of it for host object 7, at address 6. *)
Definition full_instance : Value := object_at_address 6.

Definition full_world : World :=
  mkWorld
    {[ 6%nat := mkObjectData
                  [SlotAlignedPointer (Some (ToObjectTemplate full_template));
                   SlotValue (External_New (to_pointer 7))] ∅ ]}
    [false] [] [] [] [].

End Sample.

(** ** Proof support *)

Ltac run :=
  unfold mbind, M_bind, mret, M_ret, v8, emit, deref, throw, fault; simpl.

Lemma log_nil (w : World) : log [] w = w.
Proof. destruct w; unfold log; simpl. by rewrite app_nil_r. Qed.

Lemma log_log (evs1 evs2 : list Event) (w : World) :
  log evs2 (log evs1 w) = log (evs1 ++ evs2) w.
Proof. unfold log; simpl. by rewrite <- app_assoc. Qed.

Lemma object_of_log (evs : list Event) (w : World) (v : Value) :
  object_of (log evs w) v = object_of w v.
Proof. reflexivity. Qed.

Lemma resolve_spec_log (evs : list Event) (w : World) (v : Value) :
  resolve_spec (log evs w) v = resolve_spec w v.
Proof. reflexivity. Qed.

Lemma unchanged_log (evs : list Event) (w : World) : unchanged w (log evs w).
Proof. by repeat split. Qed.

(** [(int32_t)(void* )id] gives [id] back for every 32-bit [id]. *)
Lemma to_int32_to_pointer (id : Z) :
  -2^31 ≤ id < 2^31 → to_int32 (to_pointer id) = id.
Proof.
  intros Hid. unfold to_int32, to_pointer.
  change (2^31) with 2147483648 in *. change (2^32) with 4294967296.
  change (2^64) with 18446744073709551616.
  Z.div_mod_to_equations. lia.
Qed.

(** *** HandleProxy::_RevivableCallback *)

(** C1.  When the collector invokes the revival callback, the host's
    collector-request callback is consulted only when the handle's cached
    host-object identifier is at least 0, and a handle with a negative
    identifier is released without asking.  If the host answers "do not
    dispose" the handle is left exactly as it was and no engine call is
    made; in every other case (a negative identifier, no registered
    callback, or the answer "dispose") the persistent engine reference is
    released and cleared: the engine sees [Persistent::Dispose] and
    [Persistent::Clear] on a reference that was not empty, and the handle
    is left with an empty reference. *)
Theorem revival_callback_protocol (engineProxy : V8EngineProxy.t)
    (handleProxy : HandleProxy) (w : World) :
  ∃ h' evs,
    HandleProxy_cpp._RevivableCallback engineProxy handleProxy w
      = Done h' (log evs w) ∧
    (consulted evs = true → 0 ≤ _ManagedObjectID handleProxy) ∧
    (_ManagedObjectID handleProxy < 0 →
       consulted evs = false ∧ _Handle h' = None ∧
       h' = set_Handle None handleProxy ∧
       evs = release_events handleProxy) ∧
    (∀ callback,
       V8EngineProxy._ManagedV8GarbageCollectionRequestCallback engineProxy
         = Some callback →
       0 ≤ _ManagedObjectID handleProxy →
       consulted evs = true ∧
       (callback handleProxy = false →
          h' = handleProxy ∧ engine_free evs = true ∧ evs = [gc_request]) ∧
       (callback handleProxy = true →
          h' = set_Handle None handleProxy ∧
          evs = gc_request :: release_events handleProxy ∧
          (is_Some (_Handle handleProxy) →
             evs = [gc_request; Engine "Persistent::Dispose";
                    Engine "Persistent::Clear"]))) ∧
    (V8EngineProxy._ManagedV8GarbageCollectionRequestCallback engineProxy
       = None →
     consulted evs = false ∧ h' = set_Handle None handleProxy ∧
     evs = release_events handleProxy).
Proof.
  unfold HandleProxy_cpp._RevivableCallback, release_events.
  destruct handleProxy as [id moid ty val rc disp eid [v|]]; simpl;
    destruct (V8EngineProxy._ManagedV8GarbageCollectionRequestCallback
                engineProxy) as [cb|]; simpl;
    try destruct (0 <=? moid) eqn:Hid; run;
    try destruct (cb _) eqn:Hcb; run;
    first [apply Z.leb_le in Hid | apply Z.leb_gt in Hid | idtac].
  all: rewrite ?log_log; simpl.
  all: first
    [ eexists _, _; split; [reflexivity|]
    | exists (mkHandleProxy id moid ty val rc disp eid None), [];
      split; [by rewrite log_nil|] ].
  all: repeat split; intros; simplify_eq; try done; try lia.
  all: try (by destruct H as [? [=]]).
  all: congruence.
Qed.

(** The host keeps a tagged handle alive; an untagged one is released. *)
Example revival_callback_examples :
  let h := set_ManagedObjectID 7 (Sample.handle_of JSV_Object (Some Sample.templated)) in
  let u := Sample.handle_of JSV_Object (Some Sample.templated) in
  HandleProxy_cpp._RevivableCallback (Sample.engine (Some (λ _, false))) h Sample.world
    = Done h (log [gc_request] Sample.world) ∧
  HandleProxy_cpp._RevivableCallback (Sample.engine (Some (λ _, false))) u Sample.world
    = Done (set_Handle None u)
        (log [Engine "Persistent::Dispose"; Engine "Persistent::Clear"] Sample.world).
Proof. split; reflexivity. Qed.

(** *** HandleProxy::GetManagedObjectID *)

Lemma GetManagedObjectID_cached (this : HandleProxy) (w : World) :
  _ManagedObjectID this ≠ -1 →
  HandleProxy_cpp.GetManagedObjectID this w
    = Done (_ManagedObjectID this, this) w.
Proof.
  intros Hid. unfold HandleProxy_cpp.GetManagedObjectID.
  destruct (_ManagedObjectID this <? -1) eqn:H1; [done|].
  destruct (0 <=? _ManagedObjectID this) eqn:H2; [done|]. lia.
Qed.

Lemma GetManagedObjectID_empty (this : HandleProxy) (w : World) :
  _ManagedObjectID this = -1 → _Handle this = None →
  HandleProxy_cpp.GetManagedObjectID this w = Fault.
Proof.
  intros Hid Hv. unfold HandleProxy_cpp.GetManagedObjectID.
  rewrite Hid. simpl. by rewrite Hv.
Qed.

Ltac close_scan :=
  rewrite ?log_log; simpl; eexists; split; [reflexivity|]; split; reflexivity.

(** An unresolved handle is resolved by inspecting the value; the scan
    calls into the engine and takes no mutex. *)
Lemma GetManagedObjectID_unresolved (this : HandleProxy) (v : Value)
    (w : World) :
  _ManagedObjectID this = -1 → _Handle this = Some v →
  ∃ evs,
    HandleProxy_cpp.GetManagedObjectID this w
      = Done (resolve_spec w v, set_ManagedObjectID (resolve_spec w v) this)
             (log evs w) ∧
    engine_free evs = false ∧ mutex_free evs = true.
Proof.
  intros Hid Hv. unfold HandleProxy_cpp.GetManagedObjectID, resolve_spec.
  rewrite Hid. simpl. rewrite Hv. run.
  unfold InternalFieldCount, GetInternalField, GetHiddenValue. simpl.
  destruct (IsObject v); simpl; [|close_scan].
  rewrite !object_of_log.
  destruct (1 <? Z.of_nat (length (InternalFields (object_of w v)))) eqn:Hc.
  - apply Z.ltb_lt in Hc.
    replace (2 <=? Z.of_nat (length (InternalFields (object_of w v))))
      with true by (symmetry; apply Z.leb_le; lia).
    rewrite !object_of_log.
    destruct (InternalFields (object_of w v) !! 1%nat) as [s|] eqn:Hs.
    + destruct (IsExternal (field_value s)); close_scan.
    + apply lookup_ge_None in Hs. lia.
  - apply Z.ltb_ge in Hc.
    replace (2 <=? Z.of_nat (length (InternalFields (object_of w v))))
      with false by (symmetry; apply Z.leb_gt; lia).
    rewrite !object_of_log.
    destruct (HiddenValues (object_of w v) !! "ManagedObjectID") as [m|];
      [destruct (IsInt32 m)|]; close_scan.
Qed.

(** C3.  For a handle whose identifier is unresolved (-1) and that tracks
    a value, GetManagedObjectID returns and caches what the specification
    describes: the payload of slot 1 when the value is an object with at
    least two internal fields and that slot holds an external; the hidden
    "ManagedObjectID" marker for an object without that layout; and -2 when
    nothing is found, after which a further call returns -2 without any
    inspection. *)
Theorem host_object_id_resolution (this : HandleProxy) (v : Value)
    (w : World) :
  _ManagedObjectID this = -1 → _Handle this = Some v →
  ∃ this' w',
    HandleProxy_cpp.GetManagedObjectID this w
      = Done (resolve_spec w v, this') w' ∧
    _ManagedObjectID this' = resolve_spec w v ∧
    (resolve_spec w v = -2 →
       HandleProxy_cpp.GetManagedObjectID this' w' = Done (-2, this') w').
Proof.
  intros Hid Hv.
  destruct (GetManagedObjectID_unresolved this v w Hid Hv) as (evs & Hrun & _).
  eexists _, _. split; [exact Hrun|]. split; [reflexivity|].
  intros Hr. rewrite Hr.
  apply (GetManagedObjectID_cached (set_ManagedObjectID (-2) this)).
  simpl. lia.
Qed.

(** The templated sample object resolves to host object 7 through slot 1. *)
Lemma host_object_id_resolution_witness :
  ∃ this' w',
    HandleProxy_cpp.GetManagedObjectID
      (Sample.handle_of JSV_Object (Some Sample.templated)) Sample.world
      = Done (7, this') w' ∧
    _ManagedObjectID this' = 7 ∧
    (7 = -2 →
       HandleProxy_cpp.GetManagedObjectID this' w' = Done (-2, this') w').
Proof.
  exact (host_object_id_resolution
           (Sample.handle_of JSV_Object (Some Sample.templated))
           Sample.templated Sample.world eq_refl eq_refl).
Defined.

(** The three ways of the resolution, on the sample objects. *)
Example resolution_examples :
  resolve_spec Sample.world Sample.templated = 7 ∧
  resolve_spec Sample.world Sample.ad_hoc = -2 ∧
  resolve_spec
    (update_object Sample.ad_hoc
       (store_hidden "ManagedObjectID" (Integer_New 9)) Sample.world)
    Sample.ad_hoc = 9 ∧
  resolve_spec Sample.world (Integer_New 4) = -2.
Proof. repeat split; reflexivity. Qed.

(** A host identifier of -1 written by ConnectObject is read back by every
    call: the second call inspects the object again. *)
Lemma second_call_inspects_again :
  ∃ h1 w1 h2 w2 h3 w3,
    Exports_cpp.ConnectObject
      (Sample.handle_of JSV_Object (Some Sample.ad_hoc)) (-1) None Sample.world
      = Done h1 w1 ∧
    HandleProxy_cpp.GetManagedObjectID h1 w1 = Done (-1, h2) w2 ∧
    HandleProxy_cpp.GetManagedObjectID h2 w2 = Done (-1, h3) w3 ∧
    w3 = log [Engine "IsObject"; Engine "InternalFieldCount";
              Engine "GetHiddenValue"; Engine "IsInt32"] w2.
Proof.
  do 6 eexists.
  split; [vm_compute; reflexivity|].
  split; [vm_compute; reflexivity|].
  split; vm_compute; reflexivity.
Qed.

(** C4 (amended).  Two consecutive calls of GetManagedObjectID return the
    same value.  When that value is not -1 (the identifier was resolved to
    0 or more, to a value below -1, or negatively resolved to -2) the second
    call returns the cached value and changes nothing, the probe included;
    and whenever the cached identifier is not -1 a call returns it without
    touching anything, so a new resolution takes a cached identifier of
    -1. *)
Theorem resolution_is_cached (this : HandleProxy) (w : World) (r : Z)
    (this1 : HandleProxy) (w1 : World) :
  HandleProxy_cpp.GetManagedObjectID this w = Done (r, this1) w1 →
  (∃ this2 w2,
     HandleProxy_cpp.GetManagedObjectID this1 w1 = Done (r, this2) w2) ∧
  (r ≠ -1 →
     HandleProxy_cpp.GetManagedObjectID this1 w1 = Done (r, this1) w1) ∧
  (∀ h w0, _ManagedObjectID h ≠ -1 →
     HandleProxy_cpp.GetManagedObjectID h w0
       = Done (_ManagedObjectID h, h) w0).
Proof.
  intros Hrun. split; [|split; [|apply GetManagedObjectID_cached]].
  - destruct (decide (_ManagedObjectID this = -1)) as [Hid|Hid].
    + destruct (_Handle this) as [v|] eqn:Hv.
      * destruct (GetManagedObjectID_unresolved this v w Hid Hv)
          as (evs & Hrun' & _).
        rewrite Hrun' in Hrun. injection Hrun as <- <- <-.
        destruct (decide (resolve_spec w v = -1)) as [Hr|Hr].
        -- destruct (GetManagedObjectID_unresolved
                       (set_ManagedObjectID (resolve_spec w v) this) v
                       (log evs w)) as (evs' & Hrun2 & _);
             [simpl; exact Hr | exact Hv |].
           rewrite resolve_spec_log in Hrun2. eauto.
        -- eexists _, _.
           by apply (GetManagedObjectID_cached
                       (set_ManagedObjectID (resolve_spec w v) this)).
      * by rewrite GetManagedObjectID_empty in Hrun.
    + rewrite (GetManagedObjectID_cached this w Hid) in Hrun.
      injection Hrun as <- <- <-.
      eexists _, _. by apply GetManagedObjectID_cached.
  - intros Hr.
    destruct (decide (_ManagedObjectID this = -1)) as [Hid|Hid].
    + destruct (_Handle this) as [v|] eqn:Hv.
      * destruct (GetManagedObjectID_unresolved this v w Hid Hv)
          as (evs & Hrun' & _).
        rewrite Hrun' in Hrun. injection Hrun as <- <- <-.
        by apply (GetManagedObjectID_cached
                    (set_ManagedObjectID (resolve_spec w v) this)).
      * by rewrite GetManagedObjectID_empty in Hrun.
    + rewrite (GetManagedObjectID_cached this w Hid) in Hrun.
      injection Hrun as <- <- <-. by apply GetManagedObjectID_cached.
Qed.

(** On the templated sample object the second call is a pure cache hit. *)
Lemma resolution_is_cached_witness :
  let this := Sample.handle_of JSV_Object (Some Sample.templated) in
  let this1 := set_ManagedObjectID 7 this in
  let w1 := log [Engine "IsObject"; Engine "InternalFieldCount";
                 Engine "GetInternalField"; Engine "IsExternal"] Sample.world in
  HandleProxy_cpp.GetManagedObjectID this Sample.world = Done (7, this1) w1 ∧
  (∃ this2 w2,
     HandleProxy_cpp.GetManagedObjectID this1 w1 = Done (7, this2) w2) ∧
  (7 ≠ -1 →
     HandleProxy_cpp.GetManagedObjectID this1 w1 = Done (7, this1) w1) ∧
  (∀ h w0, _ManagedObjectID h ≠ -1 →
     HandleProxy_cpp.GetManagedObjectID h w0
       = Done (_ManagedObjectID h, h) w0).
Proof.
  split; [reflexivity|].
  exact (resolution_is_cached
           (Sample.handle_of JSV_Object (Some Sample.templated)) Sample.world 7
           _ _ eq_refl).
Defined.

(** *** Handles of an engine that has been torn down *)

Lemma torn_down_log (engineID : Z) (evs : list Event) (w : World) :
  torn_down w engineID → torn_down (log evs w) engineID.
Proof. unfold torn_down, IsDisposed. simpl. by intros [= ->]. Qed.

(** Once the owning engine is gone, [_Dispose] and the destructor call each
    other without end: no amount of fuel lets either return. *)
Lemma teardown_dispose_never_returns `{!EngineProxyMembers} (fuel : nat)
    (_EngineProxy : V8EngineProxy.t) (this : HandleProxy) :
  (∀ registerDisposal w,
     torn_down w (_EngineID this) →
     HandleProxy_cpp._Dispose fuel _EngineProxy registerDisposal this w
       = Timeout) ∧
  (∀ w,
     torn_down w (_EngineID this) →
     HandleProxy_cpp.destructor fuel _EngineProxy this w = Timeout).
Proof.
  induction fuel as [|fuel [IHd IHt]]; [by split|].
  split.
  - intros reg w Hgone. simpl.
    unfold mbind, M_bind at 1 2 3. unfold emit at 1 2.
    rewrite log_log.
    apply (torn_down_log _ ([Lock (V8EngineProxy._EngineID _EngineProxy)] ++
             [Unlock (V8EngineProxy._EngineID _EngineProxy)])) in Hgone.
    rewrite Hgone. unfold mbind, M_bind. by rewrite IHt.
  - intros w Hgone. simpl. unfold mbind, M_bind. by rewrite IHd.
Qed.

(** C2 (the code at the failing input).  Engine 0 has been torn down and a
    handle of it is still outstanding.  Dispose never returns, for any
    amount of fuel; MakeWeak, MakeStrong and UpdateValue each call into the
    engine. *)
Theorem teardown_is_not_guarded :
  let _ := Sample.members in
  let h := Sample.handle_of JSV_Int32 (Some (Integer_New 3)) in
  let gone := Sample.engine None in
  torn_down Sample.after_teardown (_EngineID h) ∧
  (∀ fuel, HandleProxy_cpp.Dispose fuel gone h Sample.after_teardown = Timeout) ∧
  HandleProxy_cpp.MakeWeak gone h Sample.after_teardown
    = Done h (log [Engine "Persistent::MakeWeak"] Sample.after_teardown) ∧
  HandleProxy_cpp.MakeStrong gone h Sample.after_teardown
    = Done h (log [Engine "Persistent::ClearWeak"] Sample.after_teardown) ∧
  HandleProxy_cpp.UpdateValue h Sample.after_teardown
    = Done (set_Value (mkHandleValue (V8Integer 3) None) h)
        (log [Engine "Int32Value"] Sample.after_teardown).
Proof.
  repeat split.
  intros fuel. by apply teardown_dispose_never_returns.
Qed.

(** *** HandleProxy::SetHandle and HandleProxy::UpdateValue *)

Lemma first_match_chain_tag
    (chain : list (string * (Value → bool) * JSValueType)) (v : Value)
    (w : World) :
  ∃ evs, HandleProxy_cpp.first_match chain v w
         = Done (chain_tag chain v) (log evs w).
Proof.
  revert w. induction chain as [|[[api test] tag] rest IH]; intros w; simpl.
  - exists []. by rewrite log_nil.
  - run. destruct (test v).
    + by eexists.
    + destruct (IH (log [Engine api] w)) as [evs Hrest].
      rewrite Hrest, log_log. by eexists.
Qed.

#[local] Arguments HandleProxy_cpp.first_match : simpl never.

Lemma SetHandle_tag (this : HandleProxy) (v : Value) (w : World) :
  ∃ evs,
    HandleProxy_cpp.SetHandle this (Some v) w
      = Done (set_Type (chain_tag HandleProxy_cpp.SetHandle_chain v)
                (set_Handle (Some v) this))
             (log evs w).
Proof.
  unfold HandleProxy_cpp.SetHandle.
  destruct (_Handle this); run; rewrite ?log_log;
    match goal with
    | |- context [HandleProxy_cpp.first_match ?c v ?w0] =>
        destruct (first_match_chain_tag c v w0) as [evs ->]
    end; rewrite log_log; by eexists.
Qed.

Lemma bind_mret_inv {A B} (m : M A) (f : A → B) (w : World) (y : B)
    (w' : World) :
  (m ≫= λ x, mret (f x)) w = Done y w' → ∃ x, y = f x.
Proof.
  unfold mbind, M_bind, mret, M_ret. destruct (m w); intros [= <- <-] || done.
  by eexists.
Qed.

(** Case analysis along the chain of [SetHandle], in its order; [tac]
    closes the case in which the test at hand succeeds. *)
Ltac along_chain v tac :=
  destruct (IsBoolean v) eqn:?; [tac|];
  destruct (IsBooleanObject v) eqn:?; [tac|];
  destruct (IsInt32 v) eqn:?; [tac|];
  destruct (IsNumber v) eqn:?; [tac|];
  destruct (IsNumberObject v) eqn:?; [tac|];
  destruct (IsString v) eqn:?; [tac|];
  destruct (IsStringObject v) eqn:?; [tac|];
  destruct (IsDate v) eqn:?; [tac|];
  destruct (IsArray v) eqn:?; [tac|];
  destruct (IsRegExp v) eqn:?; [tac|];
  destruct (IsNull v) eqn:?; [tac|];
  destruct (IsFunction v) eqn:?; [tac|];
  destruct (IsExternal v) eqn:?; [tac|];
  destruct (IsNativeError v) eqn:?; [tac|];
  destruct (IsUndefined v) eqn:?; [tac|];
  destruct (IsObject v) eqn:?; [tac|];
  destruct (IsFalse v) eqn:?; [tac|];
  destruct (IsTrue v) eqn:?; [tac|].

(** A native Error object is tagged Undefined when it is assigned, and
    UpdateValue keeps that tag. *)
Lemma native_error_is_tagged_undefined :
  let _ := Sample.members in
  let boom := native_error "boom" 5 in
  ∃ h w,
    (HandleProxy_cpp.SetHandle (Sample.handle_of JSV_InternalError None)
       (Some boom) ≫= HandleProxy_cpp.UpdateValue) Sample.world = Done h w ∧
    _Handle h = Some boom ∧
    _Type h = JSV_Undefined ∧
    IsUndefined boom = false ∧
    tag_classifies h = false.
Proof. do 2 eexists. split; [vm_compute; reflexivity|]. by repeat split. Qed.

(** C8 (amended).  The kind tag is determined when a value is assigned to
    the handle: SetHandle stores the tag of the first test of its chain that
    succeeds.  Unless the value is null or the tag is Undefined, the value
    is of the kind the tag names; the chain never yields an error tag nor
    the Null tag.  UpdateValue does not classify again: it leaves the tag
    and the engine reference as they were. *)
Theorem kind_tag_assignment `{!EngineProxyMembers} :
  (∀ this v w, ∃ evs,
     HandleProxy_cpp.SetHandle this (Some v) w
       = Done (set_Type (chain_tag HandleProxy_cpp.SetHandle_chain v)
                 (set_Handle (Some v) this))
              (log evs w)) ∧
  (∀ v, IsNull v = false →
     chain_tag HandleProxy_cpp.SetHandle_chain v ≠ JSV_Undefined →
     belongs_to (Kind_of (chain_tag HandleProxy_cpp.SetHandle_chain v)) v
       = true) ∧
  (∀ v, 0 ≤ JSValueType_value (chain_tag HandleProxy_cpp.SetHandle_chain v) ∧
        chain_tag HandleProxy_cpp.SetHandle_chain v ≠ JSV_Null) ∧
  (∀ this w this' w',
     HandleProxy_cpp.UpdateValue this w = Done this' w' →
     _Type this' = _Type this ∧ _Handle this' = _Handle this).
Proof.
  split; [apply SetHandle_tag|]. split; [|split].
  - intros v Hnull. simpl.
    along_chain v ltac:(simpl; intros;
                        repeat match goal with
                               | E : _ v = _ |- _ => rewrite E; clear E
                               end;
                        first [done | congruence | by rewrite ?orb_true_r]).
    done.
  - intros v. simpl. along_chain v ltac:(simpl; split; [lia|done]).
    simpl; split; [lia|done].
  - intros this w this' w' Hrun. unfold HandleProxy_cpp.UpdateValue in Hrun.
    apply bind_mret_inv in Hrun as [value ->]. by split.
Qed.

(** The chain on sample values. *)
Example kind_tag_examples :
  chain_tag HandleProxy_cpp.SetHandle_chain (Integer_New 3) = JSV_Int32 ∧
  chain_tag HandleProxy_cpp.SetHandle_chain (string_value "X") = JSV_String ∧
  chain_tag HandleProxy_cpp.SetHandle_chain Sample.templated = JSV_Object ∧
  chain_tag HandleProxy_cpp.SetHandle_chain v8_Undefined = JSV_Undefined ∧
  chain_tag HandleProxy_cpp.SetHandle_chain (External_New 8) = JSV_Undefined.
Proof. repeat split; reflexivity. Qed.

(** A handle whose reference the revival callback has released keeps its
    Object tag through UpdateValue. *)
Example update_keeps_a_stale_tag :
  let _ := Sample.members in
  let h := Sample.handle_of JSV_Object (Some Sample.templated) in
  ∃ released,
    HandleProxy_cpp._RevivableCallback (Sample.engine None) h Sample.world
      = Done released
          (log [Engine "Persistent::Dispose"; Engine "Persistent::Clear"]
             Sample.world) ∧
    HandleProxy_cpp.UpdateValue released Sample.world
      = Done released Sample.world ∧
    _Handle released = None ∧ _Type released = JSV_Object.
Proof. eexists. by repeat split. Qed.

(** *** ConnectObject *)

Lemma object_of_update (obj : Value) (f : ObjectData → ObjectData) (w : World) :
  object_of (update_object obj f w) obj = f (object_of w obj).
Proof.
  unfold object_of at 1, update_object, set_heap; simpl.
  by rewrite lookup_insert_eq.
Qed.

Lemma update_log (obj : Value) (f : ObjectData → ObjectData)
    (evs : list Event) (w : World) :
  update_object obj f (log evs w) = log evs (update_object obj f w).
Proof. reflexivity. Qed.

Lemma update_update (obj : Value) (f g : ObjectData → ObjectData) (w : World) :
  update_object obj g (update_object obj f w)
  = update_object obj (λ o, g (f o)) w.
Proof.
  unfold update_object at 1. rewrite object_of_update.
  unfold update_object, set_heap; simpl. by rewrite insert_insert_eq.
Qed.

Lemma update_ext (obj : Value) (f g : ObjectData → ObjectData) (w : World) :
  f (object_of w obj) = g (object_of w obj) →
  update_object obj f w = update_object obj g w.
Proof. unfold update_object. by intros ->. Qed.

Lemma done_log_eq {A} (a : A) (evs evs' : list Event) (w w' : World) :
  evs = evs' → w = w' → Done a (log evs w) = Done a (log evs' w').
Proof. by intros -> ->. Qed.

Ltac close_connect :=
  rewrite ?update_log, ?log_log, ?update_update; simpl;
  eexists; split;
    [apply done_log_eq; [reflexivity | apply update_ext] | reflexivity].

Lemma ConnectObject_object (h : HandleProxy) (id : Z) (tp : option ProxyBase)
    (obj : Value) (w : World) :
  _Handle h = Some obj → IsObject obj = true →
  ∃ evs,
    Exports_cpp.ConnectObject h id tp w
      = Done (SetManagedObjectID id h)
             (log evs (update_object obj (connected id tp) w)) ∧
    mutex_free evs = true.
Proof.
  intros Hobj Hisobj. unfold Exports_cpp.ConnectObject, HandleProxy_Handle.
  rewrite Hobj. run. rewrite Hisobj. unfold InternalFieldCount. simpl.
  rewrite !object_of_log.
  destruct (1 <? Z.of_nat (length (InternalFields (object_of w obj)))) eqn:Hc.
  - apply Z.ltb_lt in Hc. 
    destruct tp as [p|]; simpl.
    + unfold SetAlignedPointerInInternalField, SetInternalField, SetHiddenValue.
      rewrite !object_of_log.
      destruct (decide _) as [_|Hn]; [|lia]. simpl.
      rewrite !update_log, !object_of_log, object_of_update. simpl.
      rewrite length_insert.
      destruct (decide _) as [_|Hn]; [|lia]. simpl.
      close_connect. unfold connected, connected_fields.
      replace (2 <=? _) with true by (symmetry; apply Z.leb_le; lia). done.
    + unfold SetInternalField, SetHiddenValue.
      rewrite !object_of_log.
      destruct (decide _) as [_|Hn]; [|lia]. simpl.
      close_connect. unfold connected, connected_fields.
      replace (2 <=? _) with true by (symmetry; apply Z.leb_le; lia). done.
  - apply Z.ltb_ge in Hc. unfold SetHiddenValue. simpl.
    close_connect. unfold connected, connected_fields.
    replace (2 <=? _) with false by (symmetry; apply Z.leb_gt; lia).
    by destruct (object_of w obj).
Qed.

Lemma ConnectObject_other (h : HandleProxy) (id : Z) (tp : option ProxyBase)
    (w : World) :
  references IsObject (_Handle h) = false →
  ∃ evs,
    Exports_cpp.ConnectObject h id tp w
      = Done (SetManagedObjectID id h) (log evs w) ∧
    mutex_free evs = true.
Proof.
  intros Hno. unfold Exports_cpp.ConnectObject, HandleProxy_Handle.
  destruct (_Handle h) as [v|]; simpl in Hno; run.
  - rewrite Hno. by eexists.
  - exists []. by rewrite log_nil.
Qed.

(** C10.  ConnectObject always returns with the given identifier recorded
    as the handle's cached host-object identifier, whatever the underlying
    value is.  The engine heap is written only when the value is an object:
    the hidden "ManagedObjectID" marker is then stamped; slot 1 receives the
    identifier as an external, and slot 0 the back-reference when it is not
    null, only when the object has at least two internal fields; nothing
    else changes. *)
Theorem connect_object_records_identifier (handleProxy : HandleProxy)
    (managedObjectID : Z) (templateProxy : option ProxyBase) (w : World) :
  ∃ w',
    Exports_cpp.ConnectObject handleProxy managedObjectID templateProxy w
      = Done (SetManagedObjectID managedObjectID handleProxy) w' ∧
    _ManagedObjectID (SetManagedObjectID managedObjectID handleProxy)
      = managedObjectID ∧
    match HandleProxy_Handle handleProxy with
    | Some obj =>
        if IsObject obj then
          let before := object_of w obj in
          let after := object_of w' obj in
          HiddenValues after !! "ManagedObjectID"
            = Some (Integer_New managedObjectID) ∧
          (∀ key, key ≠ "ManagedObjectID" →
             HiddenValues after !! key = HiddenValues before !! key) ∧
          (if 2 <=? Z.of_nat (length (InternalFields before)) then
             InternalFields after !! 1%nat
               = Some (SlotValue (External_New (to_pointer managedObjectID))) ∧
             InternalFields after !! 0%nat
               = (if templateProxy is Some _
                  then Some (SlotAlignedPointer templateProxy)
                  else InternalFields before !! 0%nat) ∧
             (∀ i, (2 ≤ i)%nat →
                InternalFields after !! i = InternalFields before !! i)
           else InternalFields after = InternalFields before) ∧
          (∀ a, a ≠ address obj → heap w' !! a = heap w !! a)
        else heap w' = heap w
    | None => heap w' = heap w
    end.
Proof.
  unfold HandleProxy_Handle.
  destruct (_Handle handleProxy) as [obj|] eqn:Hobj.
  - destruct (IsObject obj) eqn:Hisobj.
    + destruct (ConnectObject_object handleProxy managedObjectID templateProxy
                  obj w Hobj Hisobj) as (evs & Hrun & _).
      eexists. split; [exact Hrun|]. split; [done|].
      cbv zeta. rewrite object_of_log, object_of_update.
      unfold connected, connected_fields. simpl.
      split; [simpl; by rewrite lookup_insert_eq|].
      split; [intros key Hkey; simpl; by rewrite lookup_insert_ne|].
      split.
      * destruct (2 <=? Z.of_nat (length (InternalFields (object_of w obj))))
          eqn:Hc; [|done].
        apply Z.leb_le in Hc.
        destruct templateProxy as [p|]; simpl.
        -- split; [apply list_lookup_insert_eq; rewrite length_insert; lia|].
           split.
           ++ rewrite list_lookup_insert_ne by done.
              apply list_lookup_insert_eq. lia.
           ++ intros i Hi. by rewrite !list_lookup_insert_ne by lia.
        -- split; [apply list_lookup_insert_eq; lia|].
           split; [by rewrite list_lookup_insert_ne|].
           intros i Hi. by rewrite list_lookup_insert_ne by lia.
      * intros a Ha. simpl. by rewrite lookup_insert_ne.
    + destruct (ConnectObject_other handleProxy managedObjectID templateProxy w)
        as (evs & Hrun & _); [by rewrite Hobj; simpl|].
      eexists. by split; [exact Hrun|].
  - destruct (ConnectObject_other handleProxy managedObjectID templateProxy w)
      as (evs & Hrun & _); [by rewrite Hobj|].
    eexists. by split; [exact Hrun|].
Qed.

Lemma to_int32_small (id : Z) : -2^31 ≤ id < 2^31 → to_int32 id = id.
Proof.
  intros Hid. unfold to_int32.
  change (2^31) with 2147483648 in *. change (2^32) with 4294967296.
  Z.div_mod_to_equations. lia.
Qed.

(** X1.  Connecting an object to a host identifier makes the identity
    resolution find that identifier, through slot 1 when the object has the
    reserved slots and through the hidden marker otherwise. *)
Theorem connect_then_resolve (handleProxy : HandleProxy)
    (managedObjectID : Z) (templateProxy : option ProxyBase) (obj : Value)
    (w : World) :
  _Handle handleProxy = Some obj → IsObject obj = true →
  -2^31 ≤ managedObjectID < 2^31 →
  ∃ w',
    Exports_cpp.ConnectObject handleProxy managedObjectID templateProxy w
      = Done (SetManagedObjectID managedObjectID handleProxy) w' ∧
    resolve_spec w' obj = managedObjectID.
Proof.
  intros Hobj Hisobj Hid.
  destruct (ConnectObject_object handleProxy managedObjectID templateProxy
              obj w Hobj Hisobj) as (evs & Hrun & _).
  eexists. split; [exact Hrun|].
  rewrite resolve_spec_log. unfold resolve_spec. rewrite Hisobj.
  cbv zeta. rewrite object_of_update. unfold connected, connected_fields.
  simpl.
  destruct (2 <=? Z.of_nat (length (InternalFields (object_of w obj))))
    eqn:Hc.
  - apply Z.leb_le in Hc.
    rewrite length_insert.
    replace (2 <=? _) with true
      by (symmetry; apply Z.leb_le; destruct templateProxy;
          rewrite ?length_insert; lia).
    rewrite list_lookup_insert_eq
      by (destruct templateProxy; rewrite ?length_insert; lia).
    simpl. by apply to_int32_to_pointer.
  - rewrite Hc, lookup_insert_eq. simpl. by apply to_int32_small.
Qed.

(** Host object 41 connected to the ad hoc sample object. *)
Lemma connect_then_resolve_witness :
  ∃ w',
    Exports_cpp.ConnectObject
      (Sample.handle_of JSV_Object (Some Sample.ad_hoc)) 41 None Sample.world
      = Done (SetManagedObjectID 41
                (Sample.handle_of JSV_Object (Some Sample.ad_hoc))) w' ∧
    resolve_spec w' Sample.ad_hoc = 41.
Proof.
  apply (connect_then_resolve
           (Sample.handle_of JSV_Object (Some Sample.ad_hoc)) 41 None
           Sample.ad_hoc Sample.world eq_refl eq_refl).
  split; [discriminate | reflexivity].
Defined.

(** *** The handle-system mutex *)

(** Resolving the sample handle caches identifier 7 in it, and not one
    mutex operation takes place. *)
Lemma identifier_caching_takes_no_mutex :
  let this := Sample.handle_of JSV_Object (Some Sample.templated) in
  ∃ this' evs,
    HandleProxy_cpp.GetManagedObjectID this Sample.world
      = Done (7, this') (log evs Sample.world) ∧
    _ManagedObjectID this = -1 ∧
    _ManagedObjectID this' = 7 ∧
    mutex_free evs = true.
Proof.
  exists (set_ManagedObjectID 7
            (Sample.handle_of JSV_Object (Some Sample.templated))),
         [Engine "IsObject"; Engine "InternalFieldCount";
          Engine "GetInternalField"; Engine "IsExternal"].
  by repeat split.
Qed.

(** C9 (amended).  Of the registry mutations in the given sources, the
    disposal-state transition of [_Dispose] begins by acquiring the
    recursive mutex of the owning engine proxy, while identifier caching
    (GetManagedObjectID, ConnectObject) runs without any mutex operation. *)
Theorem mutex_scope `{!EngineProxyMembers} :
  (∀ fuel _EngineProxy this w,
     IsDisposed (_EngineID this) w = Done false w →
     ∃ r evs,
       HandleProxy_cpp._Dispose (S fuel) _EngineProxy false this w
         = Done r (log (Lock (V8EngineProxy._EngineID _EngineProxy) :: evs) w)) ∧
  (∀ this w r this' w',
     HandleProxy_cpp.GetManagedObjectID this w = Done (r, this') w' →
     ∃ evs, trace w' = trace w ++ evs ∧ mutex_free evs = true) ∧
  (∀ handleProxy managedObjectID templateProxy w, ∃ w' evs,
     Exports_cpp.ConnectObject handleProxy managedObjectID templateProxy w
       = Done (SetManagedObjectID managedObjectID handleProxy) w' ∧
     trace w' = trace w ++ evs ∧ mutex_free evs = true).
Proof.
  split; [|split].
  - intros fuel eng this w Hlive. simpl.
    unfold mbind, M_bind at 1 2 3. unfold emit at 1 2. rewrite log_log.
    unfold IsDisposed in *. simpl in *. injection Hlive as ->.
    destruct (_Disposed this =? 1); by eexists _, _.
  - intros this w r this' w' Hrun.
    destruct (decide (_ManagedObjectID this = -1)) as [Hid|Hid].
    + destruct (_Handle this) as [v|] eqn:Hv.
      * destruct (GetManagedObjectID_unresolved this v w Hid Hv)
          as (evs & Hrun' & _ & Hfree).
        rewrite Hrun' in Hrun. injection Hrun as <- <- <-. by exists evs.
      * by rewrite GetManagedObjectID_empty in Hrun.
    + rewrite (GetManagedObjectID_cached this w Hid) in Hrun.
      injection Hrun as <- <- <-. exists []. by rewrite app_nil_r.
  - intros h id tp w.
    destruct (_Handle h) as [obj|] eqn:Hobj.
    + destruct (IsObject obj) eqn:Hisobj.
      * destruct (ConnectObject_object h id tp obj w Hobj Hisobj)
          as (evs & Hrun & Hfree).
        by eexists _, evs.
      * destruct (ConnectObject_other h id tp w) as (evs & Hrun & Hfree);
          [by rewrite Hobj; simpl|]. by eexists _, evs.
    + destruct (ConnectObject_other h id tp w) as (evs & Hrun & Hfree);
        [by rewrite Hobj|]. by eexists _, evs.
Qed.

(** X2.  On a live engine, releasing a handle that is marked as disposing (1)
    clears its cached identifier and its Value Box and marks it as cached
    for reuse (2); disposing it once more, by either entry, returns false
    and leaves it as it is. *)
Theorem dispose_twice `{!EngineProxyMembers} (fuel fuel' : nat)
    (_EngineProxy : V8EngineProxy.t) (registerDisposal : bool)
    (this : HandleProxy) (w : World) :
  IsDisposed (_EngineID this) w = Done false w →
  _Disposed this = 1 →
  ∃ this' w',
    HandleProxy_cpp._Dispose (S fuel) _EngineProxy false this w
      = Done (true, Some this') w' ∧
    _Disposed this' = 2 ∧ _ManagedObjectID this' = -1 ∧
    _Handle this' = _Handle this ∧
    ∃ w'',
      HandleProxy_cpp._Dispose (S fuel') _EngineProxy registerDisposal this' w'
        = Done (false, Some this') w'' ∧
      unchanged w' w''.
Proof.
  intros Hlive Hmark. simpl.
  unfold mbind, M_bind at 1 2 3. unfold emit at 1 2. rewrite log_log.
  unfold IsDisposed in *. simpl in *. injection Hlive as Hflag.
  rewrite Hflag, Hmark. simpl.
  eexists _, _. split; [reflexivity|]. repeat split.
  unfold mbind, M_bind, emit. simpl. rewrite Hflag. simpl.
  eexists. split; [reflexivity|]. by repeat split.
Qed.

(** Releasing the sample handle twice on the live sample engine. *)
Lemma dispose_twice_witness :
  let h := set_Disposed 1 (Sample.handle_of JSV_Object (Some Sample.templated)) in
  ∃ this' w',
    @HandleProxy_cpp._Dispose Sample.members 1 (Sample.engine None) false h
      Sample.world = Done (true, Some this') w' ∧
    _Disposed this' = 2 ∧ _ManagedObjectID this' = -1 ∧
    _Handle this' = _Handle h ∧
    ∃ w'',
      @HandleProxy_cpp._Dispose Sample.members 1 (Sample.engine None) true
        this' w' = Done (false, Some this') w'' ∧
      unchanged w' w''.
Proof.
  exact (@dispose_twice Sample.members 0 0 (Sample.engine None) true
           (set_Disposed 1 (Sample.handle_of JSV_Object (Some Sample.templated)))
           Sample.world eq_refl eq_refl).
Defined.

(** Disposing a handle marked as disposing (1) on a live engine. *)
Example dispose_on_live_engine :
  let _ := Sample.members in
  let h := set_Disposed 1 (Sample.handle_of JSV_Object (Some Sample.templated)) in
  HandleProxy_cpp._Dispose 1 (Sample.engine None) false h Sample.world
    = Done (true, Some (set_Disposed 2 h)) (log [Lock 0; Unlock 0] Sample.world).
Proof. reflexivity. Qed.

(** *** ObjectTemplateProxy::GetProperty *)

Ltac close_decline :=
  rewrite ?log_log; simpl; eexists; split; reflexivity.

(** C5.  On a named-property get the dispatcher returns the empty ("not
    handled") handle, and schedules no exception, when the holder has fewer
    than two internal fields, when slot 0 is still undefined, and when
    slot 0 holds a null pointer or a proxy whose type tag is not that of an
    object template.  When the layout is in place and the registered getter
    returns null, the dispatcher again returns the empty handle, in the
    world the string marshalling leaves. *)
Theorem named_getter_declines `{!EngineProxyMembers} (hName : Value)
    (info : AccessorInfo.t) (w : World) :
  let fields := InternalFields (object_of w (AccessorInfo.Holder info)) in
  ((length fields < 2)%nat →
     ∃ evs, ObjectTemplateProxy_cpp.GetProperty hName info w
              = Done None (log evs w) ∧ throw_free evs = true) ∧
  (∀ v, (2 ≤ length fields)%nat → fields !! 0%nat = Some (SlotValue v) →
     IsUndefined v = true →
     ∃ evs, ObjectTemplateProxy_cpp.GetProperty hName info w
              = Done None (log evs w) ∧ throw_free evs = true) ∧
  ((2 ≤ length fields)%nat → fields !! 0%nat = Some (SlotAlignedPointer None) →
     ∃ evs, ObjectTemplateProxy_cpp.GetProperty hName info w
              = Done None (log evs w) ∧ throw_free evs = true) ∧
  (∀ target, (2 ≤ length fields)%nat →
     fields !! 0%nat = Some (SlotAlignedPointer (Some target)) →
     ProxyBase_Type target ≠ ObjectTemplateProxyClass →
     ∃ evs, ObjectTemplateProxy_cpp.GetProperty hName info w
              = Done None (log evs w) ∧ throw_free evs = true) ∧
  (∀ proxy getter id_slot str w1 w2,
     fields !! 0%nat
       = Some (SlotAlignedPointer (Some (ToObjectTemplate proxy))) →
     fields !! 1%nat = Some id_slot →
     ObjectTemplateProxy.Type_ proxy = ObjectTemplateProxyClass →
     ObjectTemplateProxy.NamedPropertyGetter proxy = Some getter →
     GetNativeString hName (log dispatch_prelude w) = Done str w1 →
     getter str
       (mkManagedAccessorInfo (ObjectTemplateProxy.this proxy)
          (to_int32 (External_Value (field_value id_slot)))
          (AccessorInfo.Data info) (AccessorInfo.This info)) = None →
     StringItem_Dispose str (log [Host "NamedPropertyGetter"] w1)
       = Done tt w2 →
     ObjectTemplateProxy_cpp.GetProperty hName info w = Done None w2).
Proof.
  cbv zeta. unfold ObjectTemplateProxy_cpp.GetProperty.
  set (obj := AccessorInfo.Holder info).
  unfold InternalFieldCount, GetInternalField,
    GetAlignedPointerFromInternalField.
  run. rewrite ?object_of_log.
  repeat split.
  - intros Hlen.
    replace (1 <? _) with false by (symmetry; apply Z.ltb_ge; lia).
    close_decline.
  - intros v Hlen H0 Hundef.
    replace (1 <? _) with true by (symmetry; apply Z.ltb_lt; lia).
    rewrite ?object_of_log, H0. simpl. rewrite Hundef. close_decline.
  - intros Hlen H0.
    replace (1 <? _) with true by (symmetry; apply Z.ltb_lt; lia).
    rewrite ?object_of_log, H0. simpl. rewrite ?object_of_log, H0.
    close_decline.
  - intros target Hlen H0 Htype.
    replace (1 <? _) with true by (symmetry; apply Z.ltb_lt; lia).
    rewrite ?object_of_log, H0. simpl. rewrite ?object_of_log, H0.
    destruct (decide _) as [|_]; [done|]. close_decline.
  - intros proxy getter id_slot str w1 w2 H0 H1 Htype Hgetter Hstr Hnull Hfree.
    assert (2 ≤ length (InternalFields (object_of w obj)))%nat as Hlen
      by (apply lookup_lt_Some in H1; lia).
    replace (1 <? _) with true by (symmetry; apply Z.ltb_lt; lia).
    rewrite ?object_of_log, H0. simpl. rewrite ?object_of_log, H0.
    destruct (decide _) as [_|]; [|done].
    rewrite ?object_of_log, H1. rewrite Hgetter.
    rewrite !log_log. simpl. unfold dispatch_prelude in Hstr.
    rewrite Hstr. rewrite Hnull. by rewrite Hfree.
Qed.

(** The scenario of the specification: the getter answers "X" for "foo"
    and declines "bar". *)
Example named_getter_scenario :
  let _ := Sample.members in
  let info := AccessorInfo.mk Sample.templated Sample.templated None in
  (∃ w', ObjectTemplateProxy_cpp.GetProperty (string_value "foo") info
           Sample.world = Done (Some (string_value "X")) w') ∧
  (∃ w', ObjectTemplateProxy_cpp.GetProperty (string_value "bar") info
           Sample.world = Done None w' ∧ throw_free (trace w') = true) ∧
  (∃ w', ObjectTemplateProxy_cpp.GetProperty (string_value "foo")
           (AccessorInfo.mk Sample.ad_hoc Sample.ad_hoc None)
           Sample.world = Done None w').
Proof. repeat split; eexists; vm_compute; split || reflexivity; reflexivity. Qed.

(** *** FunctionTemplateProxy::InvocationCallbackProxy *)

(** C6.  When a script calls a host-backed function template and the
    argument and receiver handles have been obtained, the host callback's
    result decides the outcome: null gives the empty handle back to the
    engine ("return undefined"); a result that is not flagged as an error
    (kind tag at least 0) is returned as the call's value; a result flagged
    as an error (kind tag below 0) is thrown into the engine as an
    exception carrying the string representation of its value. *)
Theorem invocation_result `{!EngineProxyMembers} (args : Arguments.t)
    (callback : ManagedJSFunctionCallback) (_args : list HandleProxy)
    (_this : HandleProxy) (w w1 w2 : World) :
  FunctionTemplateProxy._ManagedCallback (Arguments.Data args)
    = Some callback →
  FunctionTemplateProxy_cpp.wrap_arguments (Arguments.values args) w
    = Done _args w1 →
  GetHandleProxy (Some (Arguments.Holder args)) w1 = Done _this w2 →
  let result :=
    callback 0 (Arguments.IsConstructCall args) _this _args
      (Z.of_nat (length (Arguments.values args))) in
  let call := Host "ManagedJSFunctionCallback" in
  (result = None →
     FunctionTemplateProxy_cpp.InvocationCallbackProxy args w
       = Done None (log [call] w2)) ∧
  (∀ r, result = Some r → 0 ≤ JSValueType_value (_Type r) →
     FunctionTemplateProxy_cpp.InvocationCallbackProxy args w
       = Done (_Handle r) (log [call] w2)) ∧
  (∀ r v, result = Some r → JSValueType_value (_Type r) < 0 →
     _Handle r = Some v →
     FunctionTemplateProxy_cpp.InvocationCallbackProxy args w
       = Done (Some v8_Undefined)
           (log [call; Engine "ToString"; ThrowException (ToString v)] w2)).
Proof.
  intros Hcb Hargs Hthis. cbv zeta.
  unfold FunctionTemplateProxy_cpp.InvocationCallbackProxy.
  rewrite Hcb. unfold mbind, M_bind. rewrite Hargs, Hthis. run.
  repeat split.
  - by intros ->.
  - intros r -> Htag. unfold IsError, HandleProxy_Handle.
    by replace (_ <? 0) with false by (symmetry; apply Z.ltb_ge; lia).
  - intros r v -> Htag Hv. unfold IsError, HandleProxy_Handle.
    replace (_ <? 0) with true by (symmetry; apply Z.ltb_lt; lia).
    rewrite Hv. simpl. by rewrite !log_log.
Qed.

(** A host callback answering with an execution error carrying "boom":
    the exception reaches the engine with that message. *)
Lemma invocation_result_witness :
  ∃ w2,
    @FunctionTemplateProxy_cpp.InvocationCallbackProxy Sample.members
      (Sample.call_of Sample.boom) Sample.world
    = Done (Some v8_Undefined)
        (log [Host "ManagedJSFunctionCallback"; Engine "ToString";
              ThrowException "boom"] w2).
Proof.
  eexists.
  refine (proj2 (proj2
            (@invocation_result Sample.members (Sample.call_of Sample.boom)
               Sample.boom _ _ Sample.world _ _ eq_refl eq_refl eq_refl))
            _ _ eq_refl _ eq_refl).
  simpl. lia.
Defined.

(** The other two outcomes on the same call. *)
Example invocation_examples :
  let call handle :=
    @FunctionTemplateProxy_cpp.InvocationCallbackProxy Sample.members
      (Arguments.mk (Sample.function_template (λ _ _ _ _ _, handle))
         [] Sample.templated true) Sample.world in
  (∃ w', call None = Done None w') ∧
  (∃ w', call (Some (Sample.handle_of JSV_String (Some (string_value "X"))))
         = Done (Some (string_value "X")) w' ∧ throw_free (trace w') = true).
Proof. split; eexists; vm_compute; split || reflexivity; reflexivity. Qed.

(** *** The exported object operations *)

Lemma require_fails `{!EngineProxyMembers} `{!ObjectApi} {B} (api : string)
    (test : Value → bool) (what : string) (handle : Handle)
    (k : Value → M B) (w : World) :
  references test handle = false →
  fails_with what (Exports_cpp.require api test what handle ≫= k) w.
Proof.
  intros Hno. unfold fails_with, Exports_cpp.require.
  destruct handle as [v|]; simpl in Hno; run.
  - rewrite Hno. eexists. split; [reflexivity|apply unchanged_log].
  - exists w. by repeat split.
Qed.

(** C7.  Each exported object operation (set, get and delete a property by
    name or by index, property attributes, property names, own property
    names, prototype) fails with the "does not represent an object"
    exception when the handle's engine reference is empty or is not an
    object, and GetArrayLength fails with the "does not represent an array
    object" exception when it is empty or not an array; in each failure the
    engine heap and the engine proxy's pools are as before. *)
Theorem structural_precondition `{!EngineProxyMembers} `{!ObjectApi}
    (proxy : HandleProxy) (w : World) :
  (references IsObject (HandleProxy_Handle proxy) = false →
     (∀ name value attribs,
        fails_with Exports_cpp.not_an_object
          (Exports_cpp.SetObjectPropertyByName proxy name value attribs) w) ∧
     (∀ index value,
        fails_with Exports_cpp.not_an_object
          (Exports_cpp.SetObjectPropertyByIndex proxy index value) w) ∧
     (∀ name,
        fails_with Exports_cpp.not_an_object
          (Exports_cpp.GetObjectPropertyByName proxy name) w) ∧
     (∀ index,
        fails_with Exports_cpp.not_an_object
          (Exports_cpp.GetObjectPropertyByIndex proxy index) w) ∧
     (∀ name,
        fails_with Exports_cpp.not_an_object
          (Exports_cpp.DeleteObjectPropertyByName proxy name) w) ∧
     (∀ index,
        fails_with Exports_cpp.not_an_object
          (Exports_cpp.DeleteObjectPropertyByIndex proxy index) w) ∧
     (∀ name,
        fails_with Exports_cpp.not_an_object
          (Exports_cpp.GetPropertyAttributes proxy name) w) ∧
     fails_with Exports_cpp.not_an_object
       (Exports_cpp.GetPropertyNames proxy) w ∧
     fails_with Exports_cpp.not_an_object
       (Exports_cpp.GetOwnPropertyNames proxy) w ∧
     fails_with Exports_cpp.not_an_object
       (Exports_cpp.GetObjectPrototype proxy) w) ∧
  (references IsArray (HandleProxy_Handle proxy) = false →
     fails_with Exports_cpp.not_an_array (Exports_cpp.GetArrayLength proxy) w).
Proof.
  split.
  - intros Hno. repeat split; intros; by apply require_fails.
  - intros Hno. by apply require_fails.
Qed.

(** A number handle: every property operation is refused, and so is the
    array length; an object handle passes the guard. *)
Example structural_precondition_examples :
  let _ := Sample.members in
  let _ := Sample.api in
  let n := Sample.handle_of JSV_Int32 (Some (Integer_New 3)) in
  let o := Sample.handle_of JSV_Object (Some Sample.templated) in
  Exports_cpp.GetObjectPropertyByName n "foo" Sample.world
    = Threw "The handle does not represent an object."
        (log [Engine "IsObject"] Sample.world) ∧
  Exports_cpp.GetArrayLength o Sample.world
    = Threw "The handle does not represent an array object."
        (log [Engine "IsArray"] Sample.world) ∧
  Exports_cpp.GetPropertyAttributes o "foo" Sample.world
    = Done 0 (log [Engine "IsObject"] Sample.world).
Proof. repeat split; reflexivity. Qed.

(** ** Further properties of the proxy layer *)

(** *** The dispatchers of ObjectTemplateProxy.cpp *)

Lemma GetProperty_with_template_proxy `{!EngineProxyMembers}
    (hName : Value) (info : AccessorInfo.t) :
  ObjectTemplateProxy_cpp.GetProperty hName info
  = ObjectTemplateProxy_handlers.with_template_proxy info (λ proxy maInfo,
      str ← GetNativeString hName;
      match ObjectTemplateProxy.NamedPropertyGetter proxy with
      | Some getter =>
          emit (Host "NamedPropertyGetter");;
          let result := getter str maInfo in
          StringItem_Dispose str;;
          match result with
          | Some result => mret (HandleProxy_Handle result)
          | None => mret None
          end
      | None => fault
      end).
Proof. reflexivity. Qed.

Lemma with_template_proxy_declines `{!EngineProxyMembers}
    (info : AccessorInfo.t)
    (body : ObjectTemplateProxy.t → ManagedAccessorInfo → M Handle)
    (w : World) :
  not_intercepted w (AccessorInfo.Holder info) = true →
  declines (ObjectTemplateProxy_handlers.with_template_proxy info body) w.
Proof.
  unfold not_intercepted, declines,
    ObjectTemplateProxy_handlers.with_template_proxy.
  set (obj := AccessorInfo.Holder info).
  unfold InternalFieldCount, GetInternalField,
    GetAlignedPointerFromInternalField.
  run. rewrite ?object_of_log. intros Hno.
  destruct (2 <=? Z.of_nat (length (InternalFields (object_of w obj))))
    eqn:Hc.
  - apply Z.leb_le in Hc.
    replace (1 <? _) with true by (symmetry; apply Z.ltb_lt; lia).
    rewrite ?object_of_log.
    destruct (InternalFields (object_of w obj) !! 0%nat)
      as [[v|[target|]]|] eqn:H0; simpl.
    + rewrite Hno. simpl. rewrite ?log_log. by eexists.
    + rewrite ?object_of_log, H0.
      apply negb_true_iff, bool_decide_eq_false in Hno.
      destruct (decide _) as [|_]; [done|]. rewrite ?log_log. by eexists.
    + rewrite ?object_of_log, H0. rewrite ?log_log. by eexists.
    + apply lookup_ge_None in H0. lia.
  - apply Z.leb_gt in Hc.
    replace (1 <? _) with false by (symmetry; apply Z.ltb_ge; lia).
    by eexists.
Qed.

Lemma with_template_proxy_accepts `{!EngineProxyMembers}
    (info : AccessorInfo.t)
    (body : ObjectTemplateProxy.t → ManagedAccessorInfo → M Handle)
    (w : World) (proxy : ObjectTemplateProxy.t) (id : Z) :
  template_of w (AccessorInfo.Holder info) = Some (proxy, id) →
  ObjectTemplateProxy_handlers.with_template_proxy info body w
  = body proxy
      (mkManagedAccessorInfo (ObjectTemplateProxy.this proxy) id
         (AccessorInfo.Data info) (AccessorInfo.This info))
      (log dispatch_prelude w).
Proof.
  unfold template_of, ObjectTemplateProxy_handlers.with_template_proxy.
  set (obj := AccessorInfo.Holder info).
  unfold InternalFieldCount, GetInternalField,
    GetAlignedPointerFromInternalField.
  run. rewrite ?object_of_log.
  destruct (InternalFields (object_of w obj) !! 0%nat)
    as [[v|[[proxy'|f]|]]|] eqn:H0; try done.
  destruct (InternalFields (object_of w obj) !! 1%nat) as [s|] eqn:H1;
    [|done].
  destruct (decide _) as [Htype|]; [|done]. intros [= -> <-].
  assert (2 ≤ length (InternalFields (object_of w obj)))%nat
    by (apply lookup_lt_Some in H1; lia).
  replace (1 <? _) with true by (symmetry; apply Z.ltb_lt; lia).
  rewrite ?object_of_log, H0. simpl. rewrite ?object_of_log, H0.
  destruct (decide _) as [_|]; [|done].
  rewrite ?object_of_log, H1. by rewrite !log_log.
Qed.

(** X3.  A holder that was not made from a host-aware object template (it
    has fewer than two internal fields, or slot 0 is undefined, null or
    points to a proxy of another type) is never intercepted: each of the
    ten dispatchers, named and indexed, get, set, query, delete and
    enumerate, returns the empty handle, calls no host function, schedules
    no exception and leaves the engine heap as it was. *)
Theorem dispatchers_decline `{!EngineProxyMembers} `{!TemplateApi}
    (hName value : Value) (index : Z) (info : AccessorInfo.t) (w : World) :
  not_intercepted w (AccessorInfo.Holder info) = true →
  declines (ObjectTemplateProxy_cpp.GetProperty hName info) w ∧
  declines (ObjectTemplateProxy_handlers.SetProperty hName value info) w ∧
  declines (ObjectTemplateProxy_handlers.GetPropertyAttributes hName info) w ∧
  declines (ObjectTemplateProxy_handlers.DeleteProperty hName info) w ∧
  declines (ObjectTemplateProxy_handlers.GetPropertyNames info) w ∧
  declines (ObjectTemplateProxy_handlers.GetProperty_indexed index info) w ∧
  declines (ObjectTemplateProxy_handlers.SetProperty_indexed index value info) w ∧
  declines (ObjectTemplateProxy_handlers.GetPropertyAttributes_indexed index info) w ∧
  declines (ObjectTemplateProxy_handlers.DeleteProperty_indexed index info) w ∧
  declines (ObjectTemplateProxy_handlers.GetPropertyIndices info) w.
Proof.
  intros Hno. rewrite GetProperty_with_template_proxy.
  repeat split; by apply with_template_proxy_declines.
Qed.

(** The ad hoc sample object has no internal fields. *)
Lemma dispatchers_decline_witness :
  let _ := Sample.members in
  let info := AccessorInfo.mk Sample.ad_hoc Sample.ad_hoc None in
  let name := string_value "foo" in
  declines (ObjectTemplateProxy_cpp.GetProperty name info) Sample.world ∧
  declines (ObjectTemplateProxy_handlers.SetProperty name (Integer_New 1)
              info) Sample.world ∧
  declines (ObjectTemplateProxy_handlers.GetPropertyAttributes name info)
    Sample.world ∧
  declines (ObjectTemplateProxy_handlers.DeleteProperty name info)
    Sample.world ∧
  declines (ObjectTemplateProxy_handlers.GetPropertyNames info)
    Sample.world ∧
  declines (ObjectTemplateProxy_handlers.GetProperty_indexed 2 info)
    Sample.world ∧
  declines (ObjectTemplateProxy_handlers.SetProperty_indexed 2
              (Integer_New 1) info) Sample.world ∧
  declines (ObjectTemplateProxy_handlers.GetPropertyAttributes_indexed 2
              info) Sample.world ∧
  declines (ObjectTemplateProxy_handlers.DeleteProperty_indexed 2 info)
    Sample.world ∧
  declines (ObjectTemplateProxy_handlers.GetPropertyIndices info)
    Sample.world.
Proof.
  exact (@dispatchers_decline Sample.members Sample.templates
           (string_value "foo") (Integer_New 1) 2
           (AccessorInfo.mk Sample.ad_hoc Sample.ad_hoc None) Sample.world
           eq_refl).
Defined.

(** X4.  On a holder connected to an object template proxy, the query
    dispatchers turn the host handler's answer into the engine's reply: an
    answer of 0 or more is returned as an integer holding that attribute
    mask, a negative answer gives the empty handle (not intercepted).  The
    handler receives the host object identifier read from slot 1. *)
Theorem query_answer `{!EngineProxyMembers} (hName : Value) (index : Z)
    (info : AccessorInfo.t) (w : World) (proxy : ObjectTemplateProxy.t)
    (id : Z) :
  template_of w (AccessorInfo.Holder info) = Some (proxy, id) →
  let maInfo :=
    mkManagedAccessorInfo (ObjectTemplateProxy.this proxy) id
      (AccessorInfo.Data info) (AccessorInfo.This info) in
  (∀ query, ObjectTemplateProxy.IndexedPropertyQuery proxy = Some query →
     let answer := query index maInfo in
     ObjectTemplateProxy_handlers.GetPropertyAttributes_indexed index info w
       = Done (if 0 <=? answer then Some (Integer_New answer) else None)
           (log (dispatch_prelude ++ [Host "IndexedPropertyQuery"]) w)) ∧
  (∀ query str w1 w2,
     ObjectTemplateProxy.NamedPropertyQuery proxy = Some query →
     GetNativeString hName (log dispatch_prelude w) = Done str w1 →
     StringItem_Dispose str (log [Host "NamedPropertyQuery"] w1)
       = Done tt w2 →
     let answer := query str maInfo in
     ObjectTemplateProxy_handlers.GetPropertyAttributes hName info w
       = Done (if 0 <=? answer then Some (Integer_New answer) else None) w2).
Proof.
  intros Htemplate. cbv zeta. split.
  - intros query Hquery.
    unfold ObjectTemplateProxy_handlers.GetPropertyAttributes_indexed.
    rewrite (with_template_proxy_accepts _ _ _ _ _ Htemplate), Hquery.
    run. rewrite log_log. by destruct (0 <=? _).
  - intros query str w1 w2 Hquery Hstr Hfree.
    unfold ObjectTemplateProxy_handlers.GetPropertyAttributes.
    rewrite (with_template_proxy_accepts _ _ _ _ _ Htemplate).
    unfold mbind, M_bind. rewrite Hstr, Hquery. run. rewrite Hfree.
    by destruct (0 <=? _).
Qed.

(** On the sample instance, index 3 has attribute mask 4 and index 12 is
    not intercepted; so are "foo" and "bar". *)
Lemma query_answer_witness :
  let _ := Sample.members in
  let info := AccessorInfo.mk Sample.full_instance Sample.full_instance None in
  (∃ w', ObjectTemplateProxy_handlers.GetPropertyAttributes_indexed 3 info
           Sample.full_world = Done (Some (Integer_New 4)) w') ∧
  (∃ w', ObjectTemplateProxy_handlers.GetPropertyAttributes_indexed 12 info
           Sample.full_world = Done None w') ∧
  (∃ w', ObjectTemplateProxy_handlers.GetPropertyAttributes
           (string_value "foo") info Sample.full_world
         = Done (Some (Integer_New 4)) w') ∧
  (∃ w', ObjectTemplateProxy_handlers.GetPropertyAttributes
           (string_value "bar") info Sample.full_world = Done None w').
Proof.
  pose proof (λ name index,
    @query_answer Sample.members (string_value name) index
      (AccessorInfo.mk Sample.full_instance Sample.full_instance None)
      Sample.full_world Sample.full_template 7 eq_refl) as H.
  cbv zeta in H.
  split; [|split; [|split]].
  - eexists. exact (proj1 (H "" 3) _ eq_refl).
  - eexists. exact (proj1 (H "" 12) _ eq_refl).
  - eexists. exact (proj2 (H "foo" 0) _ _ _ _ eq_refl eq_refl eq_refl).
  - eexists. exact (proj2 (H "bar" 0) _ _ _ _ eq_refl eq_refl eq_refl).
Defined.

(** X5.  On a holder connected to an object template proxy, the delete
    dispatchers turn the host handler's answer into the engine's reply: a
    negative answer gives the empty handle (not intercepted), 0 gives the
    boolean false (deletion denied) and a positive answer the boolean
    true. *)
Theorem delete_answer `{!EngineProxyMembers} (hName : Value) (index : Z)
    (info : AccessorInfo.t) (w : World) (proxy : ObjectTemplateProxy.t)
    (id : Z) :
  template_of w (AccessorInfo.Holder info) = Some (proxy, id) →
  let maInfo :=
    mkManagedAccessorInfo (ObjectTemplateProxy.this proxy) id
      (AccessorInfo.Data info) (AccessorInfo.This info) in
  let reply answer :=
    if answer <? 0 then None
    else if answer =? 0 then Some (Boolean_New false)
    else Some (Boolean_New true) in
  (∀ deleter, ObjectTemplateProxy.IndexedPropertyDeleter proxy = Some deleter →
     ObjectTemplateProxy_handlers.DeleteProperty_indexed index info w
       = Done (reply (deleter index maInfo))
           (log (dispatch_prelude ++ [Host "IndexedPropertyDeleter"]) w)) ∧
  (∀ deleter str w1 w2,
     ObjectTemplateProxy.NamedPropertyDeleter proxy = Some deleter →
     GetNativeString hName (log dispatch_prelude w) = Done str w1 →
     StringItem_Dispose str (log [Host "NamedPropertyDeleter"] w1)
       = Done tt w2 →
     ObjectTemplateProxy_handlers.DeleteProperty hName info w
       = Done (reply (deleter str maInfo)) w2).
Proof.
  intros Htemplate. cbv zeta.
  assert (Hreply : ∀ answer w',
            ((if 0 <=? answer
              then mret (Some (Boolean_New (negb (answer =? 0))))
              else mret None) : M Handle) w'
            = Done (if answer <? 0 then None
                    else if answer =? 0 then Some (Boolean_New false)
                    else Some (Boolean_New true)) w').
  { intros answer w'.
    destruct (0 <=? answer) eqn:H0; destruct (answer <? 0) eqn:H1;
      destruct (answer =? 0) eqn:H2; try done; lia. }
  split.
  - intros deleter Hdeleter.
    unfold ObjectTemplateProxy_handlers.DeleteProperty_indexed.
    rewrite (with_template_proxy_accepts _ _ _ _ _ Htemplate), Hdeleter.
    unfold mbind, M_bind, emit. rewrite log_log. apply Hreply.
  - intros deleter str w1 w2 Hdeleter Hstr Hfree.
    unfold ObjectTemplateProxy_handlers.DeleteProperty.
    rewrite (with_template_proxy_accepts _ _ _ _ _ Htemplate).
    unfold mbind, M_bind. rewrite Hstr, Hdeleter.
    unfold emit. rewrite Hfree. apply Hreply.
Qed.

(** On the sample instance, deleting index 3 or "foo" is denied, and
    index 12 or "bar" is left to the engine. *)
Lemma delete_answer_witness :
  let _ := Sample.members in
  let info := AccessorInfo.mk Sample.full_instance Sample.full_instance None in
  (∃ w', ObjectTemplateProxy_handlers.DeleteProperty_indexed 3 info
           Sample.full_world = Done (Some (Boolean_New false)) w') ∧
  (∃ w', ObjectTemplateProxy_handlers.DeleteProperty_indexed 12 info
           Sample.full_world = Done None w') ∧
  (∃ w', ObjectTemplateProxy_handlers.DeleteProperty (string_value "foo")
           info Sample.full_world = Done (Some (Boolean_New false)) w') ∧
  (∃ w', ObjectTemplateProxy_handlers.DeleteProperty (string_value "bar")
           info Sample.full_world = Done None w').
Proof.
  pose proof (λ name index,
    @delete_answer Sample.members (string_value name) index
      (AccessorInfo.mk Sample.full_instance Sample.full_instance None)
      Sample.full_world Sample.full_template 7 eq_refl) as H.
  cbv zeta in H.
  split; [|split; [|split]].
  - eexists. exact (proj1 (H "" 3) _ eq_refl).
  - eexists. exact (proj1 (H "" 12) _ eq_refl).
  - eexists. exact (proj2 (H "foo" 0) _ _ _ _ eq_refl eq_refl eq_refl).
  - eexists. exact (proj2 (H "bar" 0) _ _ _ _ eq_refl eq_refl eq_refl).
Defined.

(** *** Creating host-backed objects *)

Lemma resolve_spec_by_slot (w : World) (obj : Value) (p : Z) :
  IsObject obj = true →
  InternalFields (object_of w obj) !! 1%nat
    = Some (SlotValue (External_New p)) →
  resolve_spec w obj = to_int32 p.
Proof.
  intros Hobj H1. unfold resolve_spec. rewrite Hobj. cbv zeta.
  pose proof (lookup_lt_Some _ _ _ H1).
  replace (2 <=? _) with true by (symmetry; apply Z.leb_le; lia).
  by rewrite H1.
Qed.

(** X6.  An object made by [ObjectTemplateProxy::CreateObject] is connected
    to its template and to the given host object: provided the template
    instantiates to an object with the two reserved fields and the registry
    hands out a proxy tracking it, the proxy returned carries the
    identifier, the identity resolution of the object yields it, and a
    named property read on the object reaches the template's getter with
    that identifier and gives the getter's value (or the empty handle)
    back. *)
Theorem created_object_is_connected `{!EngineProxyMembers} `{!TemplateApi}
    (this : ObjectTemplateProxy.t) (managedObjectID : Z) (obj : Value)
    (proxyVal : HandleProxy) (w w1 w2 : World) :
  ObjectTemplateProxy.Type_ this = ObjectTemplateProxyClass →
  -2^31 ≤ managedObjectID < 2^31 →
  ObjectTemplate_NewInstance this w = Done (Some obj) w1 →
  IsObject obj = true →
  (2 ≤ length (InternalFields (object_of w1 obj)))%nat →
  GetHandleProxy (Some obj) w1 = Done proxyVal w2 →
  _Handle proxyVal = Some obj →
  object_of w2 obj = object_of w1 obj →
  ∃ w3,
    ObjectTemplateProxy_handlers.CreateObject this managedObjectID w
      = Done (SetManagedObjectID managedObjectID proxyVal) w3 ∧
    resolve_spec w3 obj = managedObjectID ∧
    template_of w3 obj = Some (this, managedObjectID) ∧
    ∀ hName info getter str w4 w5,
      AccessorInfo.Holder info = obj →
      ObjectTemplateProxy.NamedPropertyGetter this = Some getter →
      GetNativeString hName (log dispatch_prelude w3) = Done str w4 →
      StringItem_Dispose str (log [Host "NamedPropertyGetter"] w4)
        = Done tt w5 →
      ObjectTemplateProxy_cpp.GetProperty hName info w3
        = Done (ObjectTemplateProxy_handlers.handle_or_empty
                  (getter str
                     (mkManagedAccessorInfo (ObjectTemplateProxy.this this)
                        managedObjectID (AccessorInfo.Data info)
                        (AccessorInfo.This info)))) w5.
Proof.
  intros Htype Hid Hnew Hobj Hlen Hproxy Htracks Hkeeps.
  destruct (ConnectObject_object proxyVal managedObjectID
              (Some (ToObjectTemplate this)) obj w2 Htracks Hobj)
    as (evs & Hconnect & _).
  eexists. split.
  { unfold ObjectTemplateProxy_handlers.CreateObject, mbind, M_bind.
    rewrite Hnew, Hproxy. exact Hconnect. }
  assert (Hslot1 : InternalFields
                 (object_of (log evs (update_object obj
                    (connected managedObjectID (Some (ToObjectTemplate this)))
                    w2)) obj) !! 1%nat
               = Some (SlotValue (External_New (to_pointer managedObjectID)))).
  { rewrite object_of_log, object_of_update, Hkeeps.
    unfold connected, connected_fields. simpl.
    replace (2 <=? _) with true by (symmetry; apply Z.leb_le; lia).
    apply list_lookup_insert_eq. rewrite length_insert. lia. }
  assert (Hslot0 : InternalFields
                 (object_of (log evs (update_object obj
                    (connected managedObjectID (Some (ToObjectTemplate this)))
                    w2)) obj) !! 0%nat
               = Some (SlotAlignedPointer (Some (ToObjectTemplate this)))).
  { rewrite object_of_log, object_of_update, Hkeeps.
    unfold connected, connected_fields. simpl.
    replace (2 <=? _) with true by (symmetry; apply Z.leb_le; lia).
    rewrite list_lookup_insert_ne by done.
    apply list_lookup_insert_eq. lia. }
  assert (Htemplate : template_of
            (log evs (update_object obj
               (connected managedObjectID (Some (ToObjectTemplate this))) w2))
            obj = Some (this, managedObjectID)).
  { unfold template_of. cbv zeta. rewrite Hslot0, Hslot1.
    destruct (decide _) as [_|]; [|done]. simpl.
    by rewrite to_int32_to_pointer. }
  split; [|split; [exact Htemplate|]].
  - rewrite (resolve_spec_by_slot _ _ _ Hobj Hslot1).
    by apply to_int32_to_pointer.
  - intros hName info getter str w4 w5 <- Hgetter Hstr Hfree.
    rewrite GetProperty_with_template_proxy.
    rewrite (with_template_proxy_accepts _ _ _ _ _ Htemplate).
    unfold mbind, M_bind. rewrite Hstr, Hgetter. unfold emit. rewrite Hfree.
    by destruct (getter _ _).
Qed.

(** The sample template creates an object for host object 7; reading
    "foo" on it gives the getter's "X". *)
Lemma created_object_is_connected_witness :
  let _ := Sample.members in
  let _ := Sample.templates in
  ∃ proxyVal w3,
    ObjectTemplateProxy_handlers.CreateObject Sample.template 7 Sample.world
      = Done (SetManagedObjectID 7 proxyVal) w3 ∧
    resolve_spec w3 (object_at_address 9) = 7 ∧
    template_of w3 (object_at_address 9) = Some (Sample.template, 7) ∧
    ObjectTemplateProxy_cpp.GetProperty (string_value "foo")
      (AccessorInfo.mk (object_at_address 9) (object_at_address 9) None) w3
      = Done (Some (string_value "X"))
          (log (dispatch_prelude ++ [Host "NamedPropertyGetter"]) w3).
Proof.
  cbv zeta.
  destruct (@created_object_is_connected Sample.members Sample.templates
              Sample.template 7 (object_at_address 9) _ Sample.world _ _
              eq_refl ltac:(lia)
              eq_refl eq_refl (le_n 2) eq_refl eq_refl eq_refl)
    as (w3 & Hrun & Hresolve & Htemplate & Hread).
  eexists. exists w3. split; [exact Hrun|]. split; [exact Hresolve|].
  split; [exact Htemplate|].
  rewrite (Hread (string_value "foo")
             (AccessorInfo.mk (object_at_address 9) (object_at_address 9) None)
             Sample.getter "foo" _ _ eq_refl eq_refl eq_refl eq_refl).
  by rewrite log_log.
Defined.

(** X7.  An object made by [FunctionTemplateProxy::CreateInstance] carries
    the host identifier but is invisible to the property dispatchers: slot
    0 receives the function template proxy itself, whose type tag is not
    the object template's, so the identity resolution of the object yields
    the identifier (and the proxy returned has it cached) while a property
    read dispatched on the object declines without calling host code. *)
Theorem created_instance_is_not_intercepted
    `{!EngineProxyMembers} `{!TemplateApi}
    (this : FunctionTemplateProxy.t) (managedObjectID : Z)
    (args : list HandleProxy) (function obj : Value)
    (proxyVal : HandleProxy) (w w0 w1 w2 : World) :
  FunctionTemplateProxy.Type_ this = FunctionTemplateProxyClass →
  -2^31 ≤ managedObjectID < 2^31 →
  FunctionTemplate_GetFunction this w = Done (Some function) w0 →
  Function_NewInstance function (HandleProxy_Handle <$> args) w0
    = Done (Some obj) w1 →
  IsObject obj = true →
  (2 ≤ length (InternalFields (object_of w1 obj)))%nat →
  GetHandleProxy (Some obj) w1 = Done proxyVal w2 →
  object_of w2 obj = object_of w1 obj →
  ∃ w3,
    FunctionTemplateProxy_instances.CreateInstance this managedObjectID args w
      = Done (set_ManagedObjectID managedObjectID proxyVal) w3 ∧
    resolve_spec w3 obj = managedObjectID ∧
    HiddenValues (object_of w3 obj) !! "ManagedObjectID"
      = Some (Integer_New managedObjectID) ∧
    template_of w3 obj = None ∧
    ∀ hName info,
      AccessorInfo.Holder info = obj →
      declines (ObjectTemplateProxy_cpp.GetProperty hName info) w3.
Proof.
  intros Htype Hid Hfun Hnew Hobj Hlen Hproxy Hkeeps.
  unfold FunctionTemplateProxy_instances.CreateInstance.
  unfold mbind, M_bind. rewrite Hfun. unfold deref at 1. unfold mret, M_ret.
  rewrite Hnew, Hproxy. unfold deref.
  unfold SetAlignedPointerInInternalField, SetInternalField, SetHiddenValue.
  unfold mret, M_ret. cbv beta iota.
  rewrite decide_True by (rewrite Hkeeps; lia). cbv beta iota.
  rewrite object_of_log, object_of_update, Hkeeps.
  rewrite decide_True by (simpl; rewrite length_insert; lia).
  eexists. split; [reflexivity|].
  set (o := object_of w1 obj) in *.
  assert (Hslot0 : InternalFields
            (store_hidden "ManagedObjectID" (Integer_New managedObjectID)
               (store_slot 1 (SlotValue (External_New (to_pointer managedObjectID)))
                  (store_slot 0
                     (SlotAlignedPointer (Some (ToFunctionTemplate this))) o)))
            !! 0%nat
          = Some (SlotAlignedPointer (Some (ToFunctionTemplate this)))).
  { simpl. rewrite list_lookup_insert_ne by done.
    apply list_lookup_insert_eq. lia. }
  assert (Hslot1 : InternalFields
            (store_hidden "ManagedObjectID" (Integer_New managedObjectID)
               (store_slot 1 (SlotValue (External_New (to_pointer managedObjectID)))
                  (store_slot 0
                     (SlotAlignedPointer (Some (ToFunctionTemplate this))) o)))
            !! 1%nat
          = Some (SlotValue (External_New (to_pointer managedObjectID)))).
  { simpl. apply list_lookup_insert_eq. rewrite length_insert. lia. }
  repeat (rewrite ?object_of_log, ?object_of_update).
  split; [|split; [|split]].
  - rewrite (resolve_spec_by_slot _ _ (to_pointer managedObjectID));
      [by apply to_int32_to_pointer | done |].
    repeat (rewrite ?object_of_log, ?object_of_update). by rewrite Hkeeps.
  - simpl. by rewrite lookup_insert_eq.
  - unfold template_of. cbv zeta.
    repeat (rewrite ?object_of_log, ?object_of_update).
    by rewrite Hkeeps, Hslot0.
  - intros hName info <-. rewrite GetProperty_with_template_proxy.
    apply with_template_proxy_declines.
    unfold not_intercepted. cbv zeta.
    repeat (rewrite ?object_of_log, ?object_of_update).
    rewrite Hkeeps, Hslot0. simpl ProxyBase_Type. rewrite Htype.
    by destruct (2 <=? _).
Qed.

(** The sample function template creates an instance for host object 7;
    reading "foo" on it is declined. *)
Lemma created_instance_is_not_intercepted_witness :
  let _ := Sample.members in
  let _ := Sample.templates in
  ∃ proxyVal w3,
    FunctionTemplateProxy_instances.CreateInstance
      (Sample.function_template Sample.boom) 7 [] Sample.world
      = Done (set_ManagedObjectID 7 proxyVal) w3 ∧
    resolve_spec w3 (object_at_address 9) = 7 ∧
    template_of w3 (object_at_address 9) = None ∧
    declines
      (ObjectTemplateProxy_cpp.GetProperty (string_value "foo")
         (AccessorInfo.mk (object_at_address 9) (object_at_address 9) None))
      w3.
Proof.
  cbv zeta.
  destruct (@created_instance_is_not_intercepted Sample.members
              Sample.templates (Sample.function_template Sample.boom) 7 []
              _ (object_at_address 9) _ Sample.world _ _ _
              eq_refl ltac:(lia) eq_refl eq_refl eq_refl (le_n 2) eq_refl
              eq_refl)
    as (w3 & Hrun & Hresolve & _ & Htemplate & Hread).
  eexists. exists w3. split; [exact Hrun|]. split; [exact Hresolve|].
  split; [exact Htemplate|]. by apply Hread.
Defined.

(** *** Calling script functions from the host *)

Lemma require_passes (api : string) (test : Value → bool) (what : string)
    (handle : Handle) (w : World) :
  references test handle = true →
  ∃ v, handle = Some v ∧ test v = true ∧
       Exports_cpp.require api test what handle w
         = Done v (log [Engine api] w).
Proof.
  destruct handle as [v|]; simpl; [|done].
  intros Hok. exists v. unfold Exports_cpp.require. run. by rewrite Hok.
Qed.

Lemma require_throws (api : string) (test : Value → bool) (what : string)
    (handle : Handle) (w : World) :
  references test handle = false →
  ∃ w', Exports_cpp.require api test what handle w = Threw what w' ∧
        unchanged w w'.
Proof.
  intros Hno. unfold Exports_cpp.require.
  destruct handle as [v|]; simpl in Hno; run.
  - rewrite Hno. eexists. split; [reflexivity|apply unchanged_log].
  - exists w. by repeat split.
Qed.

Lemma bind_threw {A B} (m : M A) (k : A → M B) (what : string)
    (w w' : World) :
  m w = Threw what w' → (m ≫= k) w = Threw what w'.
Proof. unfold mbind, M_bind. by intros ->. Qed.

Lemma bind_done {A B} (m : M A) (k : A → M B) (a : A) (w w' : World) :
  m w = Done a w' → (m ≫= k) w = k a w'.
Proof. unfold mbind, M_bind. by intros ->. Qed.

(** X8.  [Call] checks its handles in a fixed order and fails without
    calling anything: the receiver ([_this], or the subject when [_this] is
    nullptr) must be an object, whatever else is passed; then, with a
    function name, the subject must be an object and the property read
    under that name must be a function; without a name the subject must be
    a function.  Each failure has its own message, and a failing run leaves
    the engine objects and the pools as they were (as the property read
    left them, in the third case). *)
Theorem call_preconditions
    `{!EngineProxyMembers} `{!ObjectApi} `{!TemplateApi} `{!HostCode}
    (subject : HandleProxy) (functionName : option string)
    (_this : option HandleProxy) (args : list HandleProxy) (w : World) :
  let receiver := default subject _this in
  let call := Exports_calls.Call subject functionName _this args in
  (references IsObject (_Handle receiver) = false →
     fails_with Exports_calls.this_not_an_object call w) ∧
  (references IsObject (_Handle receiver) = true →
     (is_Some functionName →
      references IsObject (_Handle subject) = false →
      fails_with Exports_calls.subject_not_an_object call w) ∧
     (functionName = None →
      references IsFunction (_Handle subject) = false →
      fails_with Exports_calls.subject_not_a_function call w) ∧
     (∀ name obj hProp w1,
        functionName = Some name →
        _Handle subject = Some obj → IsObject obj = true →
        Object_Get obj (Named name)
          (log [Engine "IsObject"; Engine "IsObject"] w) = Done hProp w1 →
        references IsFunction hProp = false →
        ∃ w', call w = Threw Exports_calls.property_not_a_function w' ∧
              unchanged w1 w')).
Proof.
  cbv zeta. unfold from_option, id, Exports_calls.Call, HandleProxy_Handle.
  cbv beta. unfold fails_with. split.
  - intros Hno.
    destruct (require_throws "IsObject" IsObject
                Exports_calls.this_not_an_object _ w Hno)
      as (w' & Hrun & Hsame).
    exists w'. split; [|exact Hsame]. by apply bind_threw.
  - intros Hthis.
    destruct (require_passes "IsObject" IsObject
                Exports_calls.this_not_an_object _ w Hthis)
      as (hThis & _ & _ & Hreq).
    split; [|split].
    + intros [name ->] Hno. rewrite (bind_done _ _ _ _ _ Hreq).
      destruct (require_throws "IsObject" IsObject
                  Exports_calls.subject_not_an_object _
                  (log [Engine "IsObject"] w) Hno)
        as (w' & Hrun & Hsame).
      exists w'. split; [|exact Hsame]. by do 2 apply bind_threw.
    + intros -> Hno. rewrite (bind_done _ _ _ _ _ Hreq).
      destruct (require_throws "IsFunction" IsFunction
                  Exports_calls.subject_not_a_function _
                  (log [Engine "IsObject"] w) Hno)
        as (w' & Hrun & Hsame).
      exists w'. split; [|exact Hsame]. by apply bind_threw.
    + intros name obj hProp w1 -> Hsubject Hobj Hget Hno.
      rewrite (bind_done _ _ _ _ _ Hreq).
      destruct (require_passes "IsObject" IsObject
                  Exports_calls.subject_not_an_object (_Handle subject)
                  (log [Engine "IsObject"] w)) as (o & Ho & _ & Hreq').
      { by rewrite Hsubject. }
      rewrite Hsubject in Ho. injection Ho as <-.
      rewrite log_log in Hreq'. simpl app in Hreq'.
      destruct (require_throws "IsFunction" IsFunction
                  Exports_calls.property_not_a_function hProp w1 Hno)
        as (w' & Hrun & Hsame).
      exists w'. split; [|exact Hsame].
      apply bind_threw. rewrite (bind_done _ _ _ _ _ Hreq').
      by rewrite (bind_done _ _ _ _ _ Hget).
Qed.

(** The four refusals of [Call] on sample handles, and a call that goes
    through: the sample engine's functions return nothing, which [Call]
    hands back as nullptr. *)
Example call_examples :
  let _ := Sample.members in
  let _ := Sample.api in
  let _ := Sample.templates in
  let _ := Sample.code in
  let n := Sample.handle_of JSV_Int32 (Some (Integer_New 3)) in
  let o := Sample.handle_of JSV_Object (Some Sample.templated) in
  let f := Sample.handle_of JSV_Function
             (Some (value_with [TFunction; TObject] true 0 "function" 0 8)) in
  Exports_calls.Call f None (Some n) [] Sample.world
    = Threw Exports_calls.this_not_an_object
        (log [Engine "IsObject"] Sample.world) ∧
  Exports_calls.Call n (Some "foo") (Some o) [] Sample.world
    = Threw Exports_calls.subject_not_an_object
        (log [Engine "IsObject"; Engine "IsObject"] Sample.world) ∧
  Exports_calls.Call o (Some "foo") None [] Sample.world
    = Threw Exports_calls.property_not_a_function
        (log [Engine "IsObject"; Engine "IsObject"] Sample.world) ∧
  Exports_calls.Call o None None [] Sample.world
    = Threw Exports_calls.subject_not_a_function
        (log [Engine "IsObject"; Engine "IsFunction"] Sample.world) ∧
  Exports_calls.Call f None (Some o) [n] Sample.world
    = Done None (log [Engine "IsObject"; Engine "IsFunction"] Sample.world).
Proof. repeat split; reflexivity. Qed.

(** *** Accessors of ad hoc objects *)

Lemma SetObjectAccessor_stamp `{!EngineProxyMembers} `{!ObjectApi}
    `{!TemplateApi} `{!HostCode}
    (proxy : HandleProxy) (managedObjectID : Z) (name : string)
    (getter setter access attributes : Z) (obj : Value) (w w1 : World) :
  _Handle proxy = Some obj → IsObject obj = true →
  keeps_object (Object_SetAccessor obj name access attributes) obj →
  Exports_calls.SetObjectAccessor proxy managedObjectID name getter setter
    access attributes w = Done tt w1 →
  object_of w1 obj
    = accessor_stamp managedObjectID getter setter (object_of w obj).
Proof.
  intros Hobj Hisobj Hkeeps.
  unfold Exports_calls.SetObjectAccessor, HandleProxy_Handle,
    Exports_cpp.require, SetHiddenValue.
  rewrite Hobj. run. rewrite Hisobj.
  rewrite ?update_log, ?log_log, ?update_update. simpl app.
  destruct (Object_SetAccessor obj name access attributes _)
    as [b w'|what w'| |] eqn:Hset; try discriminate.
  intros [= <-]. rewrite (Hkeeps _ _ _ Hset).
  by rewrite object_of_log, object_of_update.
Qed.

Lemma stamped_lookups (id getter setter : Z) (o : ObjectData) :
  HiddenValues (accessor_stamp id getter setter o) !! "ManagedObjectID"
    = Some (Integer_New id) ∧
  HiddenValues (accessor_stamp id getter setter o) !! "_Getter_"
    = Some (External_New getter) ∧
  HiddenValues (accessor_stamp id getter setter o) !! "_Setter_"
    = Some (External_New setter).
Proof.
  unfold accessor_stamp, store_hidden; simpl. repeat split.
  - rewrite !lookup_insert_ne by done. by rewrite lookup_insert_eq.
  - rewrite lookup_insert_ne by done. by rewrite lookup_insert_eq.
  - by rewrite lookup_insert_eq.
Qed.

(** X9.  An accessor installed by [SetObjectAccessor] for a host object
    with a non-negative identifier and a non-null getter reaches that
    getter: a read of the property on the object calls the host function
    at the address given, with the proxy of the receiver and the name, and
    gives back the value of the handle it returns, or undefined when it
    returns nullptr.  (The engine's [SetAccessor] is assumed to leave the
    hidden values of the object alone.) *)
Theorem accessor_round_trip `{!EngineProxyMembers} `{!ObjectApi}
    `{!TemplateApi} `{!HostCode}
    (proxy : HandleProxy) (managedObjectID : Z) (name : string)
    (getter setter access attributes : Z) (obj : Value) (w w1 : World)
    (hName : Value) (info : AccessorInfo.t)
    (host_getter : HandleProxy → string → option HandleProxy)
    (_this : HandleProxy) (str : string) (w2 w3 w4 : World) :
  _Handle proxy = Some obj → IsObject obj = true →
  keeps_object (Object_SetAccessor obj name access attributes) obj →
  0 ≤ managedObjectID < 2^31 → getter ≠ 0 →
  Exports_calls.SetObjectAccessor proxy managedObjectID name getter setter
    access attributes w = Done tt w1 →
  AccessorInfo.Holder info = obj →
  getter_at getter = Some host_getter →
  GetHandleProxy (Some (AccessorInfo.This info)) (log accessor_prelude w1)
    = Done _this w2 →
  GetNativeString hName w2 = Done str w3 →
  StringItem_Dispose str (log [Host "ManagedAccessorGetter"] w3)
    = Done tt w4 →
  Exports_calls._GetObjectProperty hName info w1
    = Done (match host_getter _this str with
            | Some result => _Handle result
            | None => Some v8_Undefined
            end) w4.
Proof.
  intros Hobj Hisobj Hkeeps Hid Hgetter Hset <- Hhost Hthis Hstr Hfree.
  pose proof (SetObjectAccessor_stamp _ _ _ _ _ _ _ _ _ _
                Hobj Hisobj Hkeeps Hset) as Hstamp.
  destruct (stamped_lookups managedObjectID getter setter
              (object_of w (AccessorInfo.Holder info)))
    as (Hid_value & Hgetter_value & _).
  rewrite <- Hstamp in Hid_value, Hgetter_value.
  unfold Exports_calls._GetObjectProperty, Exports_calls.accessor_installed,
    GetHiddenValue.
  run. rewrite ?object_of_log, Hid_value, Hgetter_value. simpl.
  rewrite to_int32_small by lia.
  replace (0 <=? managedObjectID) with true by (symmetry; apply Z.leb_le; lia).
  replace (getter =? 0) with false by (symmetry; by apply Z.eqb_neq).
  simpl. rewrite Hhost. rewrite ?log_log. simpl app.
  fold accessor_prelude. rewrite Hthis, Hstr, Hfree.
  by destruct (host_getter _this str).
Qed.

(** On the ad hoc sample object, an accessor "foo" for host object 7 with
    the getter at address 64: reading it gives the getter's "X". *)
Lemma accessor_round_trip_witness :
  let _ := Sample.members in
  let _ := Sample.api in
  let _ := Sample.templates in
  let _ := Sample.code in
  let w1 :=
    log [Engine "IsObject"; Engine "SetHiddenValue"; Engine "SetHiddenValue";
         Engine "SetHiddenValue"]
      (update_object Sample.ad_hoc (accessor_stamp 7 64 0) Sample.world) in
  ∃ w4,
    Exports_calls.SetObjectAccessor
      (Sample.handle_of JSV_Object (Some Sample.ad_hoc)) 7 "foo" 64 0 0 0
      Sample.world = Done tt w1 ∧
    Exports_calls._GetObjectProperty (string_value "foo")
      (AccessorInfo.mk Sample.ad_hoc Sample.ad_hoc None) w1
      = Done (Some (string_value "X")) w4.
Proof.
  cbv zeta. eexists. split; [vm_compute; reflexivity|].
  refine (@accessor_round_trip Sample.members Sample.api Sample.templates
            Sample.code (Sample.handle_of JSV_Object (Some Sample.ad_hoc))
            7 "foo" 64 0 0 0 Sample.ad_hoc Sample.world _
            (string_value "foo")
            (AccessorInfo.mk Sample.ad_hoc Sample.ad_hoc None)
            (λ _ _, Some (Sample.handle_of JSV_String
                            (Some (string_value "X"))))
            (Sample.handle_of JSV_Object (Some Sample.ad_hoc)) "foo" _ _ _
            eq_refl eq_refl _ _ _ _ eq_refl eq_refl _ _ _).
  - by intros w a w' [= _ <-].
  - lia.
  - lia.
  - vm_compute; reflexivity.
  - vm_compute; reflexivity.
  - vm_compute; reflexivity.
  - vm_compute; reflexivity.
Defined.

(** X10.  An accessor installed by [SetObjectAccessor] with a negative
    host identifier, or with a null getter (setter), is inert: a read of
    the property gives undefined and a write returns, after the same six
    engine calls and without any call of host code or of the handle
    registry. *)
Theorem inert_accessor `{!EngineProxyMembers} `{!ObjectApi}
    `{!TemplateApi} `{!HostCode}
    (proxy : HandleProxy) (managedObjectID : Z) (name : string)
    (getter setter access attributes : Z) (obj : Value) (w w1 : World)
    (hName : Value) (info : AccessorInfo.t) :
  _Handle proxy = Some obj → IsObject obj = true →
  keeps_object (Object_SetAccessor obj name access attributes) obj →
  -2^31 ≤ managedObjectID < 2^31 →
  Exports_calls.SetObjectAccessor proxy managedObjectID name getter setter
    access attributes w = Done tt w1 →
  AccessorInfo.Holder info = obj →
  (managedObjectID < 0 ∨ getter = 0 →
   Exports_calls._GetObjectProperty hName info w1
     = Done (Some v8_Undefined) (log accessor_prelude w1)) ∧
  (managedObjectID < 0 ∨ setter = 0 →
   ∀ value,
     Exports_calls._SetObjectProperty hName value info w1
       = Done tt (log accessor_prelude w1)) ∧
  host_free accessor_prelude = true.
Proof.
  intros Hobj Hisobj Hkeeps Hid Hset <-.
  pose proof (SetObjectAccessor_stamp _ _ _ _ _ _ _ _ _ _
                Hobj Hisobj Hkeeps Hset) as Hstamp.
  destruct (stamped_lookups managedObjectID getter setter
              (object_of w (AccessorInfo.Holder info)))
    as (Hid_value & Hgetter_value & Hsetter_value).
  rewrite <- Hstamp in Hid_value, Hgetter_value, Hsetter_value.
  split; [|split; [|reflexivity]].
  - intros Hinert.
    unfold Exports_calls._GetObjectProperty, Exports_calls.accessor_installed,
      GetHiddenValue.
    run. rewrite ?object_of_log, Hid_value, Hgetter_value. simpl.
    rewrite to_int32_small by lia.
    replace ((0 <=? managedObjectID) && negb (getter =? 0)) with false.
    + by rewrite ?log_log.
    + symmetry. apply andb_false_iff. destruct Hinert as [Hneg| ->].
      * left. apply Z.leb_gt. lia.
      * by right.
  - intros Hinert value.
    unfold Exports_calls._SetObjectProperty, Exports_calls.accessor_installed,
      GetHiddenValue.
    run. rewrite ?object_of_log, Hid_value, Hsetter_value. simpl.
    rewrite to_int32_small by lia.
    replace ((0 <=? managedObjectID) && negb (setter =? 0)) with false.
    + by rewrite ?log_log.
    + symmetry. apply andb_false_iff. destruct Hinert as [Hneg| ->].
      * left. apply Z.leb_gt. lia.
      * by right.
Qed.

(** The same accessor installed for host object -1: reading it gives
    undefined. *)
Lemma inert_accessor_witness :
  let _ := Sample.members in
  let _ := Sample.api in
  let _ := Sample.templates in
  let _ := Sample.code in
  let w1 :=
    log [Engine "IsObject"; Engine "SetHiddenValue"; Engine "SetHiddenValue";
         Engine "SetHiddenValue"]
      (update_object Sample.ad_hoc (accessor_stamp (-1) 64 0) Sample.world) in
  Exports_calls.SetObjectAccessor
    (Sample.handle_of JSV_Object (Some Sample.ad_hoc)) (-1) "foo" 64 0 0 0
    Sample.world = Done tt w1 ∧
  Exports_calls._GetObjectProperty (string_value "foo")
    (AccessorInfo.mk Sample.ad_hoc Sample.ad_hoc None) w1
    = Done (Some v8_Undefined) (log accessor_prelude w1) ∧
  Exports_calls._SetObjectProperty (string_value "foo") (Integer_New 3)
    (AccessorInfo.mk Sample.ad_hoc Sample.ad_hoc None) w1
    = Done tt (log accessor_prelude w1).
Proof.
  cbv zeta.
  assert (Hrun : @Exports_calls.SetObjectAccessor Sample.templates
            (Sample.handle_of JSV_Object (Some Sample.ad_hoc)) (-1) "foo" 64
            0 0 0 Sample.world
          = Done tt
              (log [Engine "IsObject"; Engine "SetHiddenValue";
                    Engine "SetHiddenValue"; Engine "SetHiddenValue"]
                 (update_object Sample.ad_hoc (accessor_stamp (-1) 64 0)
                    Sample.world)))
    by (vm_compute; reflexivity).
  split; [exact Hrun|].
  destruct (@inert_accessor Sample.members Sample.api Sample.templates
              Sample.code (Sample.handle_of JSV_Object (Some Sample.ad_hoc))
              (-1) "foo" 64 0 0 0 Sample.ad_hoc Sample.world _
              (string_value "foo")
              (AccessorInfo.mk Sample.ad_hoc Sample.ad_hoc None)
              eq_refl eq_refl
              (λ w a w' H, match H in _ = r
                             return match r with
                                    | Done _ w'' =>
                                        object_of w'' Sample.ad_hoc
                                        = object_of w Sample.ad_hoc
                                    | _ => True
                                    end
                           with eq_refl => eq_refl end)
              ltac:(lia) Hrun eq_refl)
    as (Hget & Hset & _).
  split; [apply Hget; lia | apply Hset; lia].
Defined.

(** *** The Value Box after assignment and after release *)

Lemma revival_keeps_record `{!EngineProxyMembers}
    (engineProxy : V8EngineProxy.t) (handleProxy released : HandleProxy)
    (w w1 : World) :
  HandleProxy_cpp._RevivableCallback engineProxy handleProxy w
    = Done released w1 →
  _Type released = _Type handleProxy ∧ _Value released = _Value handleProxy.
Proof.
  unfold HandleProxy_cpp._RevivableCallback.
  destruct (V8EngineProxy._ManagedV8GarbageCollectionRequestCallback _)
    as [callback|];
    [destruct (0 <=? _ManagedObjectID handleProxy);
       [run; destruct (callback handleProxy)|]|];
    destruct (_Handle handleProxy); run; by intros [= <- <-].
Qed.

(** X11.  Once the revival callback has released the engine reference of a
    handle, [UpdateValue] on it depends on the stale kind tag alone: for a
    boolean, integer, number or date tag it follows the empty reference,
    which is undefined behaviour; for an object-like tag it only disposes
    the Value Box, and for the Undefined tag it clears the number; neither
    touches the engine. *)
Theorem update_after_release `{!EngineProxyMembers}
    (engineProxy : V8EngineProxy.t) (handleProxy released : HandleProxy)
    (w w1 : World) :
  HandleProxy_cpp._RevivableCallback engineProxy handleProxy w
    = Done released w1 →
  _Handle released = None →
  let disposed := HandleValue_Dispose (_Value handleProxy) in
  (reads_scalar (_Type handleProxy) = true →
     HandleProxy_cpp.UpdateValue released w1 = Fault) ∧
  (object_like (_Type handleProxy) = true →
     HandleProxy_cpp.UpdateValue released w1
       = Done (set_Value disposed released) w1) ∧
  (_Type handleProxy = JSV_Undefined →
     HandleProxy_cpp.UpdateValue released w1
       = Done (set_Value (mkHandleValue (V8Number 0) (V8String disposed))
                 released) w1).
Proof.
  intros Hrun Hempty.
  destruct (revival_keeps_record _ _ _ _ _ Hrun) as [Htag Hvalue].
  cbv zeta. unfold HandleProxy_cpp.UpdateValue.
  rewrite Htag, Hvalue, Hempty.
  repeat split.
  - by destruct (_Type handleProxy).
  - by destruct (_Type handleProxy).
  - by intros ->.
Qed.

(** A handle on the integer 3 whose reference the collector has released:
    refreshing its Value Box follows the empty reference. *)
Lemma update_after_release_witness :
  let _ := Sample.members in
  let h := Sample.handle_of JSV_Int32 (Some (Integer_New 3)) in
  let w1 := log [Engine "Persistent::Dispose"; Engine "Persistent::Clear"]
              Sample.world in
  HandleProxy_cpp._RevivableCallback (Sample.engine None) h Sample.world
    = Done (set_Handle None h) w1 ∧
  HandleProxy_cpp.UpdateValue (set_Handle None h) w1 = Fault.
Proof.
  cbv zeta. split; [reflexivity|].
  exact (proj1 (@update_after_release Sample.members (Sample.engine None)
                  (Sample.handle_of JSV_Int32 (Some (Integer_New 3)))
                  (set_Handle None
                     (Sample.handle_of JSV_Int32 (Some (Integer_New 3))))
                  Sample.world _ eq_refl eq_refl) eq_refl).
Defined.

(** X12.  Assigning a value to a handle and refreshing its Value Box
    materialises the scalar of the kind the assignment found: the boolean
    value for the boolean tags, the 32-bit integer for the integer tag, the
    number for the number tags and 0 for the Undefined tag, read from the
    value just assigned; the marshalled string is the one disposing the old
    box leaves, and the engine objects and pools are not changed. *)
Theorem set_handle_then_update `{!EngineProxyMembers} (this : HandleProxy)
    (v : Value) (w : World) :
  let tag := chain_tag HandleProxy_cpp.SetHandle_chain v in
  ∃ this' w1,
    HandleProxy_cpp.SetHandle this (Some v) w = Done this' w1 ∧
    _Handle this' = Some v ∧ _Type this' = tag ∧
    ∀ s, scalar_of tag v = Some s → tag ≠ JSV_Date →
      ∃ w2,
        HandleProxy_cpp.UpdateValue this' w1
          = Done (set_Value
                    (mkHandleValue s
                       (V8String (HandleValue_Dispose (_Value this))))
                    this') w2 ∧
        unchanged w w2.
Proof.
  cbv zeta. destruct (SetHandle_tag this v w) as [evs Hrun].
  remember (chain_tag HandleProxy_cpp.SetHandle_chain v) as tag eqn:Htag.
  clear Htag.
  eexists _, _. split; [exact Hrun|]. split; [done|]. split; [done|].
  intros s Hs Hdate. unfold HandleProxy_cpp.UpdateValue.
  destruct tag; simpl in Hs; try discriminate; try done;
    injection Hs as <-; run; rewrite ?log_log;
    (eexists; split; [reflexivity|apply unchanged_log]).
Qed.

(** *** Initialize *)

Lemma _Dispose_on_live_engine `{!EngineProxyMembers} (fuel : nat)
    (_EngineProxy : V8EngineProxy.t) (this : HandleProxy) (w : World) :
  IsDisposed (_EngineID this) w = Done false w →
  HandleProxy_cpp._Dispose (S fuel) _EngineProxy false this w
  = Done (if _Disposed this =? 1
          then (true,
                Some (set_Disposed 2
                        (set_Value (HandleValue_Dispose (_Value this))
                           (set_ManagedObjectID (-1) this))))
          else (false, Some this))
      (log [Lock (V8EngineProxy._EngineID _EngineProxy);
            Unlock (V8EngineProxy._EngineID _EngineProxy)] w).
Proof.
  intros Hlive. simpl.
  unfold mbind, M_bind at 1 2 3. unfold emit at 1 2. rewrite log_log.
  unfold IsDisposed in *. simpl in *. injection Hlive as Hflag.
  rewrite Hflag. by destruct (_Disposed this =? 1).
Qed.

(** X13.  On a live engine [Initialize] returns the same record tracking
    the new value, tagged by the assignment and marked as in use
    ([_Disposed] 0).  The cached host identifier is reset to -1 only when
    the record was marked as disposing (1); in every other state the
    identifier cached for the previous value is retained.  Engine objects
    and pools are left as they were. *)
Theorem initialize_lifecycle `{!EngineProxyMembers} (fuel : nat)
    (_EngineProxy : V8EngineProxy.t) (this : HandleProxy) (v : Value)
    (w : World) :
  IsDisposed (_EngineID this) w = Done false w →
  ∃ this' w',
    HandleProxy_cpp.Initialize (S fuel) _EngineProxy this (Some v) w
      = Done this' w' ∧
    unchanged w w' ∧
    _ID this' = _ID this ∧ _Disposed this' = 0 ∧ _Handle this' = Some v ∧
    _Type this' = chain_tag HandleProxy_cpp.SetHandle_chain v ∧
    _ManagedObjectID this'
      = if _Disposed this =? 1 then -1 else _ManagedObjectID this.
Proof.
  intros Hlive. unfold HandleProxy_cpp.Initialize.
  destruct (0 <? _Disposed this) eqn:Hmarked.
  - rewrite (bind_done _ _
               (if _Disposed this =? 1
                then set_Disposed 2
                       (set_Value (HandleValue_Dispose (_Value this))
                          (set_ManagedObjectID (-1) this))
                else this)
               w (log [Lock (V8EngineProxy._EngineID _EngineProxy);
                       Unlock (V8EngineProxy._EngineID _EngineProxy)] w)).
    2: { rewrite (bind_done _ _ _ _ _
                    (_Dispose_on_live_engine fuel _EngineProxy this w Hlive)).
         by destruct (_Disposed this =? 1). }
    destruct (_Disposed this =? 1) eqn:Hone;
      match goal with
      | |- context [HandleProxy_cpp.SetHandle ?h (Some v)] =>
          destruct (SetHandle_tag h v
                      (log [Lock (V8EngineProxy._EngineID _EngineProxy);
                            Unlock (V8EngineProxy._EngineID _EngineProxy)] w))
            as [evs Hset]
      end; rewrite (bind_done _ _ _ _ _ Hset); rewrite log_log;
      (eexists _, _; split; [reflexivity|]; split; [apply unchanged_log|];
       by repeat split).
  - destruct (SetHandle_tag this v w) as [evs Hset].
    rewrite (bind_done _ _ this w w) by reflexivity.
    rewrite (bind_done _ _ _ _ _ Hset).
    replace (_Disposed this =? 1) with false
      by (symmetry; apply Z.eqb_neq; apply Z.ltb_ge in Hmarked; lia).
    eexists _, _. split; [reflexivity|]. split; [apply unchanged_log|].
    by repeat split.
Qed.

(** Re-initialising the sample handle while it still caches host object 7:
    the identifier survives the new value. *)
Lemma initialize_lifecycle_witness :
  let _ := Sample.members in
  let h := set_ManagedObjectID 7
             (Sample.handle_of JSV_Object (Some Sample.templated)) in
  ∃ this' w',
    HandleProxy_cpp.Initialize 1 (Sample.engine None) h
      (Some (Integer_New 3)) Sample.world = Done this' w' ∧
    unchanged Sample.world w' ∧
    _ID this' = 0 ∧ _Disposed this' = 0 ∧
    _Handle this' = Some (Integer_New 3) ∧ _Type this' = JSV_Int32 ∧
    _ManagedObjectID this' = 7.
Proof.
  exact (@initialize_lifecycle Sample.members 0 (Sample.engine None)
           (set_ManagedObjectID 7
              (Sample.handle_of JSV_Object (Some Sample.templated)))
           (Integer_New 3) Sample.world eq_refl).
Defined.

(** *** The arguments of an invocation *)

(** X14.  The loop that wraps the arguments of an invocation keeps their
    number and order: when it returns, the array handed to the host
    callback has one proxy per argument, each the registry's answer for the
    argument at the same position; and when the registry answers every
    request, the loop returns. *)
Theorem arguments_are_wrapped_in_order `{!EngineProxyMembers}
    (values : list Value) :
  (∀ w _args w',
     FunctionTemplateProxy_cpp.wrap_arguments values w = Done _args w' →
     Forall2 (λ v p, ∃ wa wb, GetHandleProxy (Some v) wa = Done p wb)
       values _args) ∧
  ((∀ v w, In v values → ∃ p w', GetHandleProxy (Some v) w = Done p w') →
   ∀ w, ∃ _args w',
     FunctionTemplateProxy_cpp.wrap_arguments values w = Done _args w' ∧
     length _args = length values).
Proof.
  split.
  - induction values as [|v rest IH]; intros w _args w'; simpl.
    + intros [= <- <-]. constructor.
    + unfold mbind, M_bind.
      destruct (GetHandleProxy (Some v) w) as [p w1| | |] eqn:Hp;
        try discriminate.
      destruct (FunctionTemplateProxy_cpp.wrap_arguments rest w1)
        as [ps w2| | |] eqn:Hps; try discriminate.
      intros [= <- <-]. constructor; [by eexists _, _|by eapply IH].
  - induction values as [|v rest IH]; intros Hanswers w; simpl.
    + by eexists _, _.
    + unfold mbind, M_bind.
      destruct (Hanswers v w) as (p & w1 & ->); [by left|].
      destruct (IH (λ v' w0 Hin, Hanswers v' w0 (or_intror Hin)) w1)
        as (ps & w2 & -> & Hlen).
      eexists _, _. split; [reflexivity|]. simpl. by rewrite Hlen.
Qed.

(** *** Handlers registered as nullptr *)

(** X15.  No dispatcher tests its host handler before calling it: on a
    holder connected to an object template proxy, a dispatcher whose
    handler is a null pointer calls through it, which is undefined
    behaviour; the named ones do so after marshalling the name, the
    setters after wrapping the value.  (Registration installs the five
    dispatchers of a family together, whichever handlers are given.) *)
Theorem null_handler_is_called `{!EngineProxyMembers} `{!TemplateApi}
    (info : AccessorInfo.t) (proxy : ObjectTemplateProxy.t) (id : Z)
    (w : World) :
  template_of w (AccessorInfo.Holder info) = Some (proxy, id) →
  let w0 := log dispatch_prelude w in
  (ObjectTemplateProxy.NamedPropertyGetter proxy = None →
   ∀ hName str w1, GetNativeString hName w0 = Done str w1 →
     ObjectTemplateProxy_cpp.GetProperty hName info w = Fault) ∧
  (ObjectTemplateProxy.NamedPropertySetter proxy = None →
   ∀ hName value str w1 val w2,
     GetNativeString hName w0 = Done str w1 →
     GetHandleProxy (Some value) w1 = Done val w2 →
     ObjectTemplateProxy_handlers.SetProperty hName value info w = Fault) ∧
  (ObjectTemplateProxy.NamedPropertyQuery proxy = None →
   ∀ hName str w1, GetNativeString hName w0 = Done str w1 →
     ObjectTemplateProxy_handlers.GetPropertyAttributes hName info w
       = Fault) ∧
  (ObjectTemplateProxy.NamedPropertyDeleter proxy = None →
   ∀ hName str w1, GetNativeString hName w0 = Done str w1 →
     ObjectTemplateProxy_handlers.DeleteProperty hName info w = Fault) ∧
  (ObjectTemplateProxy.NamedPropertyEnumerator proxy = None →
   ObjectTemplateProxy_handlers.GetPropertyNames info w = Fault) ∧
  (ObjectTemplateProxy.IndexedPropertyGetter proxy = None →
   ∀ index,
     ObjectTemplateProxy_handlers.GetProperty_indexed index info w
       = Fault) ∧
  (ObjectTemplateProxy.IndexedPropertySetter proxy = None →
   ∀ index value val w1,
     GetHandleProxy (Some value) w0 = Done val w1 →
     ObjectTemplateProxy_handlers.SetProperty_indexed index value info w
       = Fault) ∧
  (ObjectTemplateProxy.IndexedPropertyQuery proxy = None →
   ∀ index,
     ObjectTemplateProxy_handlers.GetPropertyAttributes_indexed index info w
       = Fault) ∧
  (ObjectTemplateProxy.IndexedPropertyDeleter proxy = None →
   ∀ index,
     ObjectTemplateProxy_handlers.DeleteProperty_indexed index info w
       = Fault) ∧
  (ObjectTemplateProxy.IndexedPropertyEnumerator proxy = None →
   ObjectTemplateProxy_handlers.GetPropertyIndices info w = Fault).
Proof.
  intros Htemplate. cbv zeta.
  repeat split; intros Hnull; intros;
    rewrite ?GetProperty_with_template_proxy;
    unfold ObjectTemplateProxy_handlers.SetProperty,
      ObjectTemplateProxy_handlers.GetPropertyAttributes,
      ObjectTemplateProxy_handlers.DeleteProperty,
      ObjectTemplateProxy_handlers.GetPropertyNames,
      ObjectTemplateProxy_handlers.GetProperty_indexed,
      ObjectTemplateProxy_handlers.SetProperty_indexed,
      ObjectTemplateProxy_handlers.GetPropertyAttributes_indexed,
      ObjectTemplateProxy_handlers.DeleteProperty_indexed,
      ObjectTemplateProxy_handlers.GetPropertyIndices;
    rewrite (with_template_proxy_accepts _ _ _ _ _ Htemplate);
    repeat match goal with
           | Hrun : _ = Done _ _ |- _ =>
               rewrite (bind_done _ _ _ _ _ Hrun); clear Hrun
           end;
    by rewrite Hnull.
Qed.

(** The sample template registers a named getter only: enumerating the
    properties of its instance, or reading an index, calls a null
    handler. *)
Lemma null_handler_is_called_witness :
  let _ := Sample.members in
  let _ := Sample.templates in
  let info := AccessorInfo.mk Sample.templated Sample.templated None in
  ObjectTemplateProxy_handlers.GetPropertyNames info Sample.world = Fault ∧
  ObjectTemplateProxy_handlers.GetProperty_indexed 2 info Sample.world
    = Fault.
Proof.
  cbv zeta.
  destruct (@null_handler_is_called Sample.members Sample.templates
              (AccessorInfo.mk Sample.templated Sample.templated None)
              Sample.template 7 Sample.world eq_refl)
    as (_ & _ & _ & _ & Hnames & Hindex & _).
  split; [by apply Hnames | by apply Hindex].
Defined.
